(** * deno_kv_oauth: the callback flow and the bound helpers

    A shallow embedding of [lib/handle_callback.ts] and
    [lib/create_helpers.ts].  The asynchronous functions of the library are
    programs over the operations of their collaborators (the key-value
    store, the OAuth client, the random generator); a program is run
    against a world, alone or interleaved with another one. *)

From Stdlib Require Import ZArith String List Bool Lia.
From stdpp Require Import base option gmap strings list fin_maps.

Local Open Scope string_scope.
Local Open Scope Z_scope.

(** ** JavaScript objects with optional properties *)

(** A property of an object literal: not an own property of the object,
    an own property holding [undefined], or an own property with a value.
    [Partial<Cookie>] admits all three for every field. *)
Inductive property (A : Type) : Type :=
| absent
| undefined
| present (a : A).
Arguments absent {A}.
Arguments undefined {A}.
Arguments present {A} a.

(** Reading [o.f]: [None] stands for [undefined]. *)
Definition read {A} (p : property A) : option A :=
  match p with
  | present a => Some a
  | _ => None
  end.

(** One field of the spread [{...o1, ...o2}]: an own property of [o2]
    (whatever it holds) replaces the one of [o1]. *)
Definition over {A} (p1 p2 : property A) : property A :=
  match p2 with
  | absent => p1
  | _ => p2
  end.

(** The truth value of a number in a condition; a count of seconds is an
    integer here. *)
Definition truthy (n : Z) : bool := negb (n =? 0).

(** ** Cookies (the [Cookie] interface of std/http) *)

Inductive SameSite : Type := Strict | Lax | NoSameSite.

(** An object of type [Cookie] or [Partial<Cookie>]. *)
Record Cookie : Type := mkCookie {
  name : property string;
  value : property string;
  expires : property Z;
  maxAge : property Z;
  domain : property string;
  path : property string;
  secure : property bool;
  httpOnly : property bool;
  sameSite : property SameSite;
  unparsed : property (list string)
}.

(** [{...c1, ...c2}] *)
Definition spread (c1 c2 : Cookie) : Cookie :=
  {| name := over (name c1) (name c2);
     value := over (value c1) (value c2);
     expires := over (expires c1) (expires c2);
     maxAge := over (maxAge c1) (maxAge c2);
     domain := over (domain c1) (domain c2);
     path := over (path c1) (path c2);
     secure := over (secure c1) (secure c2);
     httpOnly := over (httpOnly c1) (httpOnly c2);
     sameSite := over (sameSite c1) (sameSite c2);
     unparsed := over (unparsed c1) (unparsed c2) |}.

(** [...o] where [o] may be [undefined]: spreading [undefined] adds
    nothing. *)
Definition spread_opt (c1 : Cookie) (c2 : option Cookie) : Cookie :=
  match c2 with
  | Some c => spread c1 c
  | None => c1
  end.

(** ** Requests and responses *)

(** The request headers as the flows read them: the object that std's
    [getCookies] returns for them, and the [Referer] header. *)
Record RequestHeaders : Type := {
  cookie : gmap string string;
  referer : option string
}.

Record Request : Type := {
  url : string;
  headers : RequestHeaders
}.

Definition getCookies (h : RequestHeaders) : gmap string string := cookie h.

(** A response: its status, its [Location] header and the cookies of its
    [Set-Cookie] headers, in the order they were appended.  A cookie is
    kept as the object the core handed to std's [setCookie]. *)
Record Response : Type := {
  status : Z;
  location : option string;
  setCookies : list Cookie
}.

(** ** Errors *)

Inductive error : Type :=
| Error (message : string)          (* [new Error(message)] *)
| NotFoundError                     (* no live record under the id *)
| TokenExchangeError (message : string)   (* thrown by the OAuth client *)
| CookieError (message : string).   (* thrown by std's [setCookie] *)

(** ** Records of the store and of the OAuth client *)

Record OAuthSession : Type := {
  state : string;
  codeVerifier : string;
  successUrl : string
}.

Record Tokens : Type := {
  accessToken : string;
  tokenType : string;
  refreshToken : option string;
  expiresIn : option Z
}.

Record OAuth2ClientConfig : Type := {
  clientId : string;
  clientSecret : option string;
  authorizationEndpointUri : string;
  tokenUri : string;
  redirectUri : option string
}.

(** ** Programs over the collaborators

    An [async] function is a tree: it returns, throws, or calls one
    operation of a collaborator and goes on with the answer.  Every such
    call is awaited in the source, so these are also the points where
    another request can run in between. *)
Inductive prog (A : Type) : Type :=
| Ret (a : A)
| Throw (e : error)
| KvGetAndDeleteOAuth (id : string) (k : option OAuthSession -> prog A)
| KvSetOAuth (id : string) (s : OAuthSession) (expireIn : Z) (k : prog A)
| KvSetSite (id : string) (expireIn : option Z) (k : prog A)
| ClientGetToken (cfg : OAuth2ClientConfig) (callbackUrl : string)
    (s : OAuthSession) (k : error + Tokens -> prog A)
| ClientGetAuthorizationUri (cfg : OAuth2ClientConfig)
    (urlParams : option (list (string * string)))
    (k : string * string * string -> prog A)
| RandomUUID (k : string -> prog A).
Arguments Ret {A} a.
Arguments Throw {A} e.
Arguments KvGetAndDeleteOAuth {A} id k.
Arguments KvSetOAuth {A} id s expireIn k.
Arguments KvSetSite {A} id expireIn k.
Arguments ClientGetToken {A} cfg callbackUrl s k.
Arguments ClientGetAuthorizationUri {A} cfg urlParams k.
Arguments RandomUUID {A} k.

Fixpoint bind {A B} (m : prog A) (f : A -> prog B) : prog B :=
  match m with
  | Ret a => f a
  | Throw e => Throw e
  | KvGetAndDeleteOAuth id k => KvGetAndDeleteOAuth id (fun x => bind (k x) f)
  | KvSetOAuth id s t k => KvSetOAuth id s t (bind k f)
  | KvSetSite id t k => KvSetSite id t (bind k f)
  | ClientGetToken cfg u s k => ClientGetToken cfg u s (fun x => bind (k x) f)
  | ClientGetAuthorizationUri cfg ps k =>
      ClientGetAuthorizationUri cfg ps (fun x => bind (k x) f)
  | RandomUUID k => RandomUUID (fun x => bind (k x) f)
  end.

#[global] Instance prog_ret : MRet prog := @Ret.
#[global] Instance prog_bind : MBind prog := fun A B f m => bind m f.

(** A synchronous call that may throw. *)
Definition try {A} (r : error + A) : prog A :=
  match r with
  | inl e => Throw e
  | inr a => Ret a
  end.

(** ** The world a program runs against *)

(** A record of the store and the instant it expires at, if any. *)
Record entry (A : Type) : Type := {
  stored : A;
  expiresAt : option Z
}.
Arguments stored {A} e.
Arguments expiresAt {A} e.

(** The key-value store with its two key namespaces ([oauth_session:{id}]
    and [site_session:{id}], one map per namespace, keyed by the id), the
    clock of the store in milliseconds, the answers of the random
    generator and of the OAuth provider (the n-th call gets the n-th
    answer) and how many of them were used. *)
Record World : Type := {
  oauth_sessions : gmap string (entry OAuthSession);
  site_sessions : gmap string (entry unit);
  now : Z;
  uuids : nat -> string;
  uuids_used : nat;
  tokenEndpoint : nat -> OAuth2ClientConfig -> string -> OAuthSession -> error + Tokens;
  authorizationEndpoint :
    nat -> OAuth2ClientConfig -> option (list (string * string)) ->
    string * string * string;
  client_calls : nat
}.

Definition with_oauth_sessions (m : gmap string (entry OAuthSession)) (w : World) : World :=
  {| oauth_sessions := m; site_sessions := site_sessions w; now := now w;
     uuids := uuids w; uuids_used := uuids_used w;
     tokenEndpoint := tokenEndpoint w;
     authorizationEndpoint := authorizationEndpoint w;
     client_calls := client_calls w |}.

Definition with_site_sessions (m : gmap string (entry unit)) (w : World) : World :=
  {| oauth_sessions := oauth_sessions w; site_sessions := m; now := now w;
     uuids := uuids w; uuids_used := uuids_used w;
     tokenEndpoint := tokenEndpoint w;
     authorizationEndpoint := authorizationEndpoint w;
     client_calls := client_calls w |}.

Definition with_now (t : Z) (w : World) : World :=
  {| oauth_sessions := oauth_sessions w; site_sessions := site_sessions w;
     now := t;
     uuids := uuids w; uuids_used := uuids_used w;
     tokenEndpoint := tokenEndpoint w;
     authorizationEndpoint := authorizationEndpoint w;
     client_calls := client_calls w |}.

Definition with_uuids_used (n : nat) (w : World) : World :=
  {| oauth_sessions := oauth_sessions w; site_sessions := site_sessions w;
     now := now w;
     uuids := uuids w; uuids_used := n;
     tokenEndpoint := tokenEndpoint w;
     authorizationEndpoint := authorizationEndpoint w;
     client_calls := client_calls w |}.

Definition with_client_calls (n : nat) (w : World) : World :=
  {| oauth_sessions := oauth_sessions w; site_sessions := site_sessions w;
     now := now w;
     uuids := uuids w; uuids_used := uuids_used w;
     tokenEndpoint := tokenEndpoint w;
     authorizationEndpoint := authorizationEndpoint w;
     client_calls := n |}.

(** The store treats a record whose time-to-live has elapsed as absent. *)
Definition live {A} (t : Z) (e : entry A) : bool :=
  match expiresAt e with
  | Some deadline => t <? deadline
  | None => true
  end.

Definition kv_get {A} (t : Z) (m : gmap string (entry A)) (id : string) : option A :=
  match m !! id with
  | Some e => if live t e then Some (stored e) else None
  | None => None
  end.

(** [expireIn] counts milliseconds from the instant of the write. *)
Definition kv_set {A} (t : Z) (id : string) (a : A) (expireIn : option Z)
    (m : gmap string (entry A)) : gmap string (entry A) :=
  <[id := {| stored := a; expiresAt := (fun d => t + d) <$> expireIn |}]> m.

(** Time passes in the store. *)
Definition elapse (d : Z) (w : World) : World := with_now (now w + d) w.

(** One operation of a collaborator, done in one piece: the program that
    remains and the world after it.  The read-and-delete of a handshake
    record is a single operation of the store. *)
Definition step {A} (p : prog A) (w : World) : prog A * World :=
  match p with
  | Ret _ | Throw _ => (p, w)
  | KvGetAndDeleteOAuth id k =>
      (k (kv_get (now w) (oauth_sessions w) id),
       with_oauth_sessions (delete id (oauth_sessions w)) w)
  | KvSetOAuth id s t k =>
      (k, with_oauth_sessions (kv_set (now w) id s (Some t) (oauth_sessions w)) w)
  | KvSetSite id t k =>
      (k, with_site_sessions (kv_set (now w) id tt t (site_sessions w)) w)
  | ClientGetToken cfg u s k =>
      (k (tokenEndpoint w (client_calls w) cfg u s),
       with_client_calls (S (client_calls w)) w)
  | ClientGetAuthorizationUri cfg ps k =>
      (k (authorizationEndpoint w (client_calls w) cfg ps),
       with_client_calls (S (client_calls w)) w)
  | RandomUUID k =>
      (k (uuids w (uuids_used w)), with_uuids_used (S (uuids_used w)) w)
  end.

(** A program run alone, to its end. *)
Fixpoint run {A} (p : prog A) (w : World) : (error + A) * World :=
  match p with
  | Ret a => (inr a, w)
  | Throw e => (inl e, w)
  | KvGetAndDeleteOAuth id k =>
      run (k (kv_get (now w) (oauth_sessions w) id))
          (with_oauth_sessions (delete id (oauth_sessions w)) w)
  | KvSetOAuth id s t k =>
      run k (with_oauth_sessions (kv_set (now w) id s (Some t) (oauth_sessions w)) w)
  | KvSetSite id t k =>
      run k (with_site_sessions (kv_set (now w) id tt t (site_sessions w)) w)
  | ClientGetToken cfg u s k =>
      run (k (tokenEndpoint w (client_calls w) cfg u s))
          (with_client_calls (S (client_calls w)) w)
  | ClientGetAuthorizationUri cfg ps k =>
      run (k (authorizationEndpoint w (client_calls w) cfg ps))
          (with_client_calls (S (client_calls w)) w)
  | RandomUUID k =>
      run (k (uuids w (uuids_used w))) (with_uuids_used (S (uuids_used w)) w)
  end.

(** The result of a finished program. *)
Definition result {A} (p : prog A) : option (error + A) :=
  match p with
  | Ret a => Some (inr a)
  | Throw e => Some (inl e)
  | _ => None
  end.

(** Two requests handled at once: a schedule says whose next operation
    runs ([true] for the first program); a finished program stays as it
    is. *)
Fixpoint interleave {A B} (schedule : list bool) (p : prog A) (q : prog B)
    (w : World) : prog A * prog B * World :=
  match schedule with
  | [] => (p, q, w)
  | true :: rest => let '(p', w') := step p w in interleave rest p' q w'
  | false :: rest => let '(q', w') := step q w in interleave rest p q' w'
  end.

(** How many operations a program can still make, at most.  The answers
    of the collaborators range over infinite types, so the bound is given
    by a predicate. *)
Inductive within {A} : nat -> prog A -> Prop :=
| within_Ret n a : within n (Ret a)
| within_Throw n e : within n (Throw e)
| within_KvGetAndDeleteOAuth n id k :
    (forall x, within n (k x)) -> within (S n) (KvGetAndDeleteOAuth id k)
| within_KvSetOAuth n id s t k :
    within n k -> within (S n) (KvSetOAuth id s t k)
| within_KvSetSite n id t k :
    within n k -> within (S n) (KvSetSite id t k)
| within_ClientGetToken n cfg u s k :
    (forall x, within n (k x)) -> within (S n) (ClientGetToken cfg u s k)
| within_ClientGetAuthorizationUri n cfg ps k :
    (forall x, within n (k x)) ->
    within (S n) (ClientGetAuthorizationUri cfg ps k)
| within_RandomUUID n k :
    (forall x, within n (k x)) -> within (S n) (RandomUUID k).

(** A program that never writes a handshake record. *)
Inductive no_oauth_write {A} : prog A -> Prop :=
| now_Ret a : no_oauth_write (Ret a)
| now_Throw e : no_oauth_write (Throw e)
| now_KvGetAndDeleteOAuth id k :
    (forall x, no_oauth_write (k x)) -> no_oauth_write (KvGetAndDeleteOAuth id k)
| now_KvSetSite id t k :
    no_oauth_write k -> no_oauth_write (KvSetSite id t k)
| now_ClientGetToken cfg u s k :
    (forall x, no_oauth_write (k x)) -> no_oauth_write (ClientGetToken cfg u s k)
| now_ClientGetAuthorizationUri cfg ps k :
    (forall x, no_oauth_write (k x)) ->
    no_oauth_write (ClientGetAuthorizationUri cfg ps k)
| now_RandomUUID k :
    (forall x, no_oauth_write (k x)) -> no_oauth_write (RandomUUID k).

(** The first [n] operations of a program run alone. *)
Fixpoint after {A} (n : nat) (p : prog A) (w : World) : prog A * World :=
  match n with
  | O => (p, w)
  | S n' => let '(p', w') := step p w in after n' p' w'
  end.

(** Whether a program has returned or thrown. *)
Definition finished {A} (p : prog A) : bool :=
  match result p with
  | Some _ => true
  | None => false
  end.

(** How often a thread is scheduled. *)
Fixpoint turns (who : bool) (schedule : list bool) : nat :=
  match schedule with
  | [] => O
  | b :: rest => ((if Bool.eqb b who then 1 else 0) + turns who rest)%nat
  end.

(** The states of two programs that race for the handshake record [id]
    of the world [w]: none has made its read-and-delete yet; or one has
    made its first [S n] operations, the first of them the
    read-and-delete, and the other one either has not started or has
    failed on its read-and-delete. *)
Inductive race {A} (P Q : prog A) (w : World) : prog A -> prog A -> World -> Prop :=
| race_start : race P Q w P Q w
| race_first n q :
    q = Q \/ q = Throw NotFoundError ->
    race P Q w (after (S n) P w).1 q (after (S n) P w).2
| race_second n p :
    p = P \/ p = Throw NotFoundError ->
    race P Q w p (after (S n) Q w).1 (after (S n) Q w).2.

(** ** Options of the flows *)

(** [HandleCallbackOptions], [CreateHelpersOptions] and the options that
    [createHelpers] builds for [signOut] have one and the same shape:
    [{ cookieOptions?: Partial<Cookie> }]. *)
Record CookieOptionsBag : Type := {
  cookieOptions : option Cookie
}.
Abbreviation HandleCallbackOptions := CookieOptionsBag (only parsing).
Abbreviation CreateHelpersOptions := CookieOptionsBag (only parsing).
Abbreviation SignOutOptions := CookieOptionsBag (only parsing).

(** The options that [createHelpers] builds for [getSessionId]:
    [{ cookieName: ... }], where the name may be [undefined]. *)
Record GetSessionIdOptions : Type := {
  cookieName : option string
}.

(** What [handleCallback] resolves to. *)
Record CallbackResult : Type := {
  response : Response;
  sessionId : string;
  tokens : Tokens
}.

(** [options?.cookieOptions] *)
Definition cookieOptions_of (options : option CookieOptionsBag) : option Cookie :=
  options ≫= cookieOptions.

(** [options?.cookieOptions?.name] *)
Definition cookieOptions_name_of (options : option CookieOptionsBag) : option string :=
  cookieOptions_of options ≫= (fun c => read (name c)).

(** ** lib/create_helpers.ts *)

Module Helpers.
(** The object that [createHelpers] returns. *)
Record t (SignInOptions : Type) : Type := {
  signIn : Request -> option SignInOptions -> prog Response;
  handleCallback : Request -> prog CallbackResult;
  signOut : Request -> prog Response;
  getSessionId : Request -> prog (option string)
}.
Arguments signIn {SignInOptions} _.
Arguments handleCallback {SignInOptions} _.
Arguments signOut {SignInOptions} _.
Arguments getSessionId {SignInOptions} _.
End Helpers.

Section CreateHelpers.
(** The four operations that the module imports. *)
Variable SignInOptions : Type.
Variable signIn :
  Request -> OAuth2ClientConfig -> option SignInOptions -> prog Response.
Variable handleCallback :
  Request -> OAuth2ClientConfig -> option HandleCallbackOptions -> prog CallbackResult.
Variable signOut : Request -> option SignOutOptions -> prog Response.
Variable getSessionId : Request -> option GetSessionIdOptions -> prog (option string).

Definition createHelpers (oauthConfig : OAuth2ClientConfig)
    (options : option CreateHelpersOptions) : Helpers.t SignInOptions :=
  {| Helpers.signIn := fun request options' =>
       signIn request oauthConfig options';
     Helpers.handleCallback := fun request =>
       handleCallback request oauthConfig
         (Some {| cookieOptions := cookieOptions_of options |});
     Helpers.signOut := fun request =>
       signOut request (Some {| cookieOptions := cookieOptions_of options |});
     Helpers.getSessionId := fun request =>
       getSessionId request
         (Some {| cookieName := cookieOptions_name_of options |}) |}.

(** The bound operations as the specification words them: each helper
    is the standalone operation with the configuration of the
    construction filled in. *)
Definition boundHelpers (oauthConfig : OAuth2ClientConfig)
    (constructionCookieOptions : option Cookie) : Helpers.t SignInOptions :=
  {| Helpers.signIn := fun request perCall =>
       signIn request oauthConfig perCall;
     Helpers.handleCallback := fun request =>
       handleCallback request oauthConfig
         (Some {| cookieOptions := constructionCookieOptions |});
     Helpers.signOut := fun request =>
       signOut request (Some {| cookieOptions := constructionCookieOptions |});
     Helpers.getSessionId := fun request =>
       getSessionId request
         (Some {| cookieName :=
                    match constructionCookieOptions with
                    | Some c => read (name c)
                    | None => None
                    end |}) |}.
End CreateHelpers.

(** ** The demo server *)

(** A response of the demo server: one that it builds itself, with its
    status, body and content type, or the response of one of the
    flows. *)
Inductive ServerResponse : Type :=
| Page (status : Z) (body : option string) (contentType : option string)
| Flow (r : Response).

Section Demo.
(** What the demo imports from [mod.ts] (the client of [createClient],
    the lookup of the session id, which answers at once and with [null]
    for no session, the lookup of the access token and the three flows),
    what it reads of a request (its method and the path of its URL) and
    the two pages it renders. *)
Variable Client : Type.
Variable AccessToken : Type.
Variable Outcome : Type.
Variable outcome_response : Outcome -> Response.
Variable client : Client.
Variable getSessionAccessToken : Client -> string -> prog AccessToken.
Variable getSessionId : Request -> option string.
Variable handleCallback : Request -> Client -> prog Outcome.
Variable signIn : Request -> Client -> prog Response.
Variable signOut : Request -> prog Response.
Variable method : Request -> string.
Variable pathname : string -> string.
Variable anonymousBody : string.
Variable signedInBody : AccessToken -> string.

Definition indexHandler (request : Request) : prog ServerResponse :=
  match getSessionId request with
  | Some sessionId =>
      accessToken ← getSessionAccessToken client sessionId;
      Ret (Page 200 (Some (signedInBody accessToken))
             (Some "text/html; charset=utf-8"))
  | None =>
      Ret (Page 200 (Some anonymousBody) (Some "text/html; charset=utf-8"))
  end.

Definition handler (request : Request) : prog ServerResponse :=
  if negb (String.eqb (method request) "GET") then Ret (Page 404 None None)
  else
    let pathname' := pathname (url request) in
    if String.eqb pathname' "/" then indexHandler request
    else if String.eqb pathname' "/signin" then
      response ← signIn request client; Ret (Flow response)
    else if String.eqb pathname' "/callback" then
      outcome ← handleCallback request client;
      Ret (Flow (outcome_response outcome))
    else if String.eqb pathname' "/signout" then
      response ← signOut request; Ret (Flow response)
    else Ret (Page 404 None None).
End Demo.

(** Modelled from the spec: [SignInOptions] of [lib/sign_in.ts], the URL
    to go to after the login and extra parameters for the provider. *)
Record SignInOptions : Type := {
  successUrlOption : option string;
  urlParams : option (list (string * string))
}.

(** ** Constants of the dependencies *)

(** [SECOND] of std/datetime: the milliseconds in a second. *)
Definition SECOND : Z := 1000.

(** ** Sample data *)

(** Modelled from the spec: [COOKIE_BASE] of [lib/_http.ts], the default
    attributes HttpOnly, SameSite=Lax and Path=/. *)
Definition SPEC_COOKIE_BASE : Cookie :=
  {| name := absent; value := absent; expires := absent; maxAge := absent;
     domain := absent; path := present "/"; secure := absent;
     httpOnly := present true; sameSite := present Lax; unparsed := absent |}.

(** The prefix of a cookie that is locked to its host. *)
Definition HOST_PREFIX : string := "__Host-".

(** A check of cookies that accepts every cookie. *)
Definition accept (c : Cookie) : option error := None.

Definition sample_handshake : OAuthSession :=
  {| state := "state-1"; codeVerifier := "verifier-1"; successUrl := "/dashboard" |}.

Definition sample_tokens : Tokens :=
  {| accessToken := "access-1"; tokenType := "Bearer";
     refreshToken := None; expiresIn := Some 3600 |}.

Definition sample_config : OAuth2ClientConfig :=
  {| clientId := "client-1"; clientSecret := Some "secret-1";
     authorizationEndpointUri := "https://provider.example/authorize";
     tokenUri := "https://provider.example/token";
     redirectUri := None |}.

(** A store that holds the handshake record ["h1"] for ten minutes, a
    provider that grants every exchange, and the random ids ["uuid-0"],
    ["uuid-1"], ... *)
Definition sample_world : World :=
  {| oauth_sessions :=
       {[ "h1" := {| stored := sample_handshake; expiresAt := Some 600000 |} ]};
     site_sessions := ∅;
     now := 0;
     uuids := fun n => match n with O => "uuid-0" | _ => "uuid-1" end;
     uuids_used := 0;
     tokenEndpoint := fun _ _ _ _ => inr sample_tokens;
     authorizationEndpoint := fun _ _ _ =>
       ("https://provider.example/authorize?state=state-1", "state-1", "verifier-1");
     client_calls := 0 |}.

(** The same world with a provider that rejects every exchange. *)
Definition rejecting_world : World :=
  {| oauth_sessions := oauth_sessions sample_world;
     site_sessions := site_sessions sample_world;
     now := now sample_world;
     uuids := uuids sample_world;
     uuids_used := uuids_used sample_world;
     tokenEndpoint := fun _ _ _ _ => inl (TokenExchangeError "invalid_grant");
     authorizationEndpoint := authorizationEndpoint sample_world;
     client_calls := client_calls sample_world |}.

(** A callback request over http that carries the handshake cookie. *)
Definition http_callback : Request :=
  {| url := "http://localhost:8000/callback?code=abc&state=state-1";
     headers := {| cookie := {[ "oauth-session" := "h1" ]}; referer := None |} |}.

(** A callback request over https that carries the handshake cookie. *)
Definition https_callback : Request :=
  {| url := "https://example.com/callback?code=abc&state=state-1";
     headers := {| cookie := {[ "__Host-oauth-session" := "h1" ]};
                   referer := None |} |}.

(** A callback request over http without any cookie. *)
Definition bare_callback : Request :=
  {| url := "http://localhost:8000/callback?code=abc&state=state-1";
     headers := {| cookie := ∅; referer := None |} |}.

(** A sign-in request over http. *)
Definition http_signin : Request :=
  {| url := "http://localhost:8000/signin";
     headers := {| cookie := ∅; referer := Some "/dashboard" |} |}.

(** A callback request over http that carries the cookie that the
    sign-in in the sample world sets. *)
Definition http_callback_after_signin : Request :=
  {| url := "http://localhost:8000/callback?code=abc&state=state-1";
     headers := {| cookie := {[ "oauth-session" := "uuid-0" ]}; referer := None |} |}.

(** [{ cookieOptions: { secure: true } }] *)
Definition secure_option : CookieOptionsBag :=
  {| cookieOptions :=
       Some {| name := absent; value := absent; expires := absent;
               maxAge := absent; domain := absent; path := absent;
               secure := present true;
               httpOnly := absent; sameSite := absent; unparsed := absent |} |}.

(** [{ cookieOptions: { maxAge: 0 } }] *)
Definition maxAge_zero_option : CookieOptionsBag :=
  {| cookieOptions :=
       Some {| name := absent; value := absent; expires := absent;
               maxAge := present 0; domain := absent; path := absent;
               secure := absent;
               httpOnly := absent; sameSite := absent; unparsed := absent |} |}.

(** [{ cookieOptions: { maxAge: 3600 } }] *)
Definition maxAge_hour_option : CookieOptionsBag :=
  {| cookieOptions :=
       Some {| name := absent; value := absent; expires := absent;
               maxAge := present 3600; domain := absent; path := absent;
               secure := absent;
               httpOnly := absent; sameSite := absent; unparsed := absent |} |}.

(** Each of two requests takes its turn in alternation. *)
Definition alternating : list bool :=
  [true; false; true; false; true; false; true; false].

(** Default attributes that carry a [maxAge] of ninety days. *)
Definition NINETY_DAYS_BASE : Cookie :=
  {| name := absent; value := absent; expires := absent;
     maxAge := present 7776000;
     domain := absent; path := present "/"; secure := absent;
     httpOnly := present true; sameSite := present Lax; unparsed := absent |}.

(** A check of cookies that rejects every cookie. *)
Definition reject (c : Cookie) : option error := Some (CookieError "invalid cookie").

(** The sample world ten minutes later: the handshake record has
    expired. *)
Definition late_world : World :=
  {| oauth_sessions := oauth_sessions sample_world;
     site_sessions := site_sessions sample_world;
     now := 600000;
     uuids := uuids sample_world;
     uuids_used := uuids_used sample_world;
     tokenEndpoint := tokenEndpoint sample_world;
     authorizationEndpoint := authorizationEndpoint sample_world;
     client_calls := client_calls sample_world |}.

(** [{ cookieOptions: { maxAge: undefined } }] *)
Definition maxAge_undefined_option : CookieOptionsBag :=
  {| cookieOptions :=
       Some {| name := absent; value := absent; expires := absent;
               maxAge := undefined; domain := absent; path := absent;
               secure := absent;
               httpOnly := absent; sameSite := absent; unparsed := absent |} |}.

(** [{ cookieOptions: { name: "__Secure-triple-choc", domain: "news.site" } }],
    the options of the example in the documentation of
    [createHelpers]. *)
Definition triple_choc_option : CookieOptionsBag :=
  {| cookieOptions :=
       Some {| name := present "__Secure-triple-choc"; value := absent;
               expires := absent; maxAge := absent;
               domain := present "news.site"; path := absent;
               secure := absent;
               httpOnly := absent; sameSite := absent; unparsed := absent |} |}.

(** The path of the sample URLs. *)
Definition sample_pathname (url : string) : string :=
  if String.eqb url "http://localhost:8000/callback?code=abc&state=state-1"
  then "/callback"
  else if String.eqb url "http://localhost:8000/signin" then "/signin"
  else "/".

(** A lookup of the session id that reads the site cookie only. *)
Definition sample_getSessionId (request : Request) : option string :=
  getCookies (headers request) !! "site-session".

(** An index request over http, without and with a site cookie. *)
Definition anonymous_index : Request :=
  {| url := "http://localhost:8000/";
     headers := {| cookie := ∅; referer := None |} |}.

Definition signed_in_index : Request :=
  {| url := "http://localhost:8000/";
     headers := {| cookie := {[ "site-session" := "uuid-0" ]};
                   referer := None |} |}.

(** A lookup of access tokens that knows one token. *)
Definition sample_getSessionAccessToken (client : OAuth2ClientConfig)
    (sessionId : string) : prog string :=
  Ret "access-1".

(** A sign-out that only redirects. *)
Definition sample_signOut (request : Request) : prog Response :=
  Ret {| status := 302; location := Some "/"; setCookies := [] |}.

(** The sample world with a second handshake record ["h2"]. *)
Definition two_handshakes_world : World :=
  {| oauth_sessions :=
       <["h2" := {| stored := {| state := "state-2"; codeVerifier := "verifier-2";
                                 successUrl := "/profile" |};
                    expiresAt := Some 600000 |}]> (oauth_sessions sample_world);
     site_sessions := site_sessions sample_world;
     now := now sample_world;
     uuids := uuids sample_world;
     uuids_used := uuids_used sample_world;
     tokenEndpoint := tokenEndpoint sample_world;
     authorizationEndpoint := authorizationEndpoint sample_world;
     client_calls := client_calls sample_world |}.

(** A callback request over http that carries the second handshake
    cookie. *)
Definition second_callback : Request :=
  {| url := "http://localhost:8000/callback?code=def&state=state-2";
     headers := {| cookie := {[ "oauth-session" := "h2" ]}; referer := None |} |}.

Section Core.

(** Left open: the default attributes of a cookie ([COOKIE_BASE] of
    [lib/_http.ts]), the name prefix of a cookie that needs [Secure], and
    the check that std's [setCookie] makes of a cookie (its name, value,
    domain, path and max-age) before it appends it, [Some e] when it
    throws [e]. *)
Variable COOKIE_BASE : Cookie.
Variable SECURE_PREFIX : string.
Variable cookie_check : Cookie -> option error.

(** *** lib/_http.ts *)

(** Modelled from the spec: [OAUTH_COOKIE_NAME] of [lib/_http.ts], the
    logical purpose ["oauth-session"]. *)
Definition OAUTH_COOKIE_NAME : string := "oauth-session".

(** Modelled from the spec: [SITE_COOKIE_NAME] of [lib/_http.ts], the
    logical purpose ["site-session"]. *)
Definition SITE_COOKIE_NAME : string := "site-session".

(** Modelled from the spec: [isHttps] of [lib/_http.ts], whether the
    scheme of the request URL is https. *)
Definition isHttps (url : string) : bool := String.prefix "https://" url.

(** Modelled from the spec: [getCookieName] of [lib/_http.ts], the
    purpose plus a prefix that depends on https. *)
Definition getCookieName (name : string) (isHttps : bool) : string :=
  if isHttps then SECURE_PREFIX +:+ name else name.

(** Modelled from the spec: [redirect] of [lib/_http.ts], an HTTP
    redirect (302) to the location. *)
Definition redirect (location : string) : Response :=
  {| status := 302; location := Some location; setCookies := [] |}.

(** std's [setCookie(response.headers, cookie)]. *)
Definition setCookie (response : Response) (cookie : Cookie) : error + Response :=
  match cookie_check cookie with
  | Some e => inl e
  | None =>
      inr {| status := status response;
             location := location response;
             setCookies := setCookies response ++ [cookie] |}
  end.

(** Modelled from the spec: [buildCookie] of the cookie codec, the
    defaults merged with the overrides and then the fields that have to
    agree with the request scheme. *)
Definition buildCookie (purpose value' : string) (isHttps : bool)
    (overrides : option Cookie) : Cookie :=
  spread (spread_opt COOKIE_BASE overrides)
    {| name := present (getCookieName purpose isHttps);
       value := present value';
       expires := absent; maxAge := absent; domain := absent;
       path := absent;
       secure := present isHttps;
       httpOnly := absent; sameSite := absent; unparsed := absent |}.

(** Modelled from the spec: [readCookie] of the cookie codec. *)
Definition readCookie (headers : RequestHeaders) (purpose : string)
    (isHttps : bool) : option string :=
  getCookies headers !! getCookieName purpose isHttps.

(** *** lib/_kv.ts *)

(** Modelled from the spec: the fixed time-to-live of a handshake
    record in [lib/_kv.ts], ten minutes. *)
Definition OAUTH_SESSION_TTL : Z := 10 * 60 * SECOND.

(** Modelled from the spec: [setOAuthSession] of [lib/_kv.ts], the
    write of a handshake record with the fixed time-to-live. *)
Definition setOAuthSession (id : string) (s : OAuthSession) : prog unit :=
  KvSetOAuth id s OAUTH_SESSION_TTL (Ret tt).

(** Modelled from the spec: [getAndDeleteOAuthSession] of
    [lib/_kv.ts], the atomic read-and-delete, which fails with a
    not-found error when it reads no record. *)
Definition getAndDeleteOAuthSession (id : string) : prog OAuthSession :=
  KvGetAndDeleteOAuth id (fun found =>
    match found with
    | Some s => Ret s
    | None => Throw NotFoundError
    end).

(** Modelled from the spec: [setSiteSession] of [lib/_kv.ts], the
    write of an empty marker with the given time-to-live, or without
    expiry. *)
Definition setSiteSession (id : string) (expireIn : option Z) : prog unit :=
  KvSetSite id expireIn (Ret tt).

(** *** The calls into the dependencies *)

(** [new OAuth2Client(oauthConfig).code.getToken(url, oauthSession)] *)
Definition getToken (oauthConfig : OAuth2ClientConfig) (url : string)
    (oauthSession : OAuthSession) : prog Tokens :=
  ClientGetToken oauthConfig url oauthSession try.

(** [crypto.randomUUID()] *)
Definition randomUUID : prog string := RandomUUID Ret.

(** *** lib/handle_callback.ts *)

(** The object literal of lines 75-81. *)
Definition callbackCookie (request : Request) (sessionId : string)
    (options : option HandleCallbackOptions) : Cookie :=
  spread_opt
    (spread COOKIE_BASE
       {| name := present (getCookieName SITE_COOKIE_NAME (isHttps (url request)));
          value := present sessionId;
          expires := absent; maxAge := absent; domain := absent;
          path := absent;
          secure := present (isHttps (url request));
          httpOnly := absent; sameSite := absent; unparsed := absent |})
    (cookieOptions_of options).

(** [cookie.maxAge ? cookie.maxAge * SECOND : undefined] *)
Definition siteSessionExpireIn (cookie : Cookie) : option Z :=
  match read (maxAge cookie) with
  | Some seconds => if truthy seconds then Some (seconds * SECOND) else None
  | None => None
  end.

Definition handleCallback (request : Request) (oauthConfig : OAuth2ClientConfig)
    (options : option HandleCallbackOptions) : prog CallbackResult :=
  let oauthCookieName := getCookieName OAUTH_COOKIE_NAME (isHttps (url request)) in
  match getCookies (headers request) !! oauthCookieName with
  | None => Throw (Error "OAuth cookie not found")
  | Some oauthSessionId =>
      oauthSession ← getAndDeleteOAuthSession oauthSessionId;
      tokens ← getToken oauthConfig (url request) oauthSession;
      sessionId ← randomUUID;
      let response := redirect (successUrl oauthSession) in
      let cookie := callbackCookie request sessionId options in
      response ← try (setCookie response cookie);
      _ ← setSiteSession sessionId (siteSessionExpireIn cookie);
      Ret {| response := response; sessionId := sessionId; tokens := tokens |}
  end.

(** *** The sign-in flow *)

(** Modelled from the spec: [create] of the OAuth session manager
    ([lib/_kv.ts] and [lib/sign_in.ts]), a fresh random id and the
    handshake record written under it. *)
Definition createOAuthSession (state' codeVerifier' successUrl' : string) : prog string :=
  id ← randomUUID;
  _ ← setOAuthSession id
        {| state := state'; codeVerifier := codeVerifier';
           successUrl := successUrl' |};
  Ret id.

(** Modelled from the spec: [signIn] of [lib/sign_in.ts], steps 1 to 5
    of the sign-in flow. *)
Definition signIn (request : Request) (oauthConfig : OAuth2ClientConfig)
    (options : option SignInOptions) : prog Response :=
  let successUrl' :=
    default (default "/" (referer (headers request)))
            (options ≫= successUrlOption) in
  ClientGetAuthorizationUri oauthConfig (options ≫= urlParams)
    (fun '(uri, state', codeVerifier') =>
       id ← createOAuthSession state' codeVerifier' successUrl';
       let cookie :=
         buildCookie OAUTH_COOKIE_NAME id (isHttps (url request)) None in
       try (setCookie (redirect uri) cookie)).

(** What a browser sends back of the cookies of a response: the value
    under the name, for each cookie that has both; a later cookie of the
    same name replaces an earlier one. *)
Definition sent_back (r : Response) (jar : gmap string string) : gmap string string :=
  fold_left
    (fun jar c =>
       match read (name c), read (value c) with
       | Some n, Some v => <[n := v]> jar
       | _, _ => jar
       end)
    (setCookies r) jar.

(** *** The worlds of a callback *)

(** The world after the read-and-delete of the handshake record [id]. *)
Definition consumed (id : string) (w : World) : World :=
  with_oauth_sessions (delete id (oauth_sessions w)) w.

(** The worlds that a callback goes through once its handshake record
    was read: after the token exchange, after the random id and after
    the write of the site session. *)
Definition exchanged (id : string) (w : World) : World :=
  with_client_calls (S (client_calls w)) (consumed id w).

Definition drawn (id : string) (w : World) : World :=
  with_uuids_used (S (uuids_used w)) (exchanged id w).

Definition signed_in (id : string) (expireIn : option Z) (w : World) : World :=
  with_site_sessions
    (kv_set (now w) (uuids w (uuids_used w)) tt expireIn (site_sessions w))
    (drawn id w).

(** The property [f] of [options?.cookieOptions], absent when there are
    no options or no cookie options. *)
Definition overridden {A} (f : Cookie -> property A)
    (options : option HandleCallbackOptions) : property A :=
  match cookieOptions_of options with
  | Some o => f o
  | None => absent
  end.

(** The world after a sign-in that wrote the handshake record [record]
    under a fresh id. *)
Definition started (record : OAuthSession) (w : World) : World :=
  with_oauth_sessions
    (kv_set (now w) (uuids w (uuids_used w)) record (Some OAUTH_SESSION_TTL)
       (oauth_sessions w))
    (with_uuids_used (S (uuids_used w))
       (with_client_calls (S (client_calls w)) w)).

(** * Properties *)

(** ** Running a program *)

Lemma run_bind {A B} (m : prog A) (f : A -> prog B) (w : World) :
  run (bind m f) w =
  match run m w with
  | (inr a, w') => run (f a) w'
  | (inl e, w') => (inl e, w')
  end.
Proof.
  revert w. induction m as [a|e|id k IH|id s t k IH|id t k IH|cfg u s k IH|cfg ps k IH|k IH];
    intros w; simpl; auto.
Qed.

Lemma run_step {A} (p : prog A) (w : World) :
  run p w = run (step p w).1 (step p w).2.
Proof. destruct p; reflexivity. Qed.

Lemma run_result {A} (p : prog A) (w : World) r :
  result p = Some r -> run p w = (r, w).
Proof. destruct p; cbn; intros [= <-]; reflexivity. Qed.

Lemma after_S {A} n (p : prog A) (w : World) :
  after (S n) p w = after n (step p w).1 (step p w).2.
Proof. cbn [after]. now destruct (step p w). Qed.

Lemma after_last {A} n (p : prog A) (w : World) :
  after (S n) p w = step (after n p w).1 (after n p w).2.
Proof.
  revert p w. induction n as [|n IH]; intros p w.
  - cbn. now destruct (step p w).
  - now rewrite (after_S (S n) p w), IH, (after_S n p w).
Qed.

Lemma run_after {A} n (p : prog A) (w : World) :
  run (after n p w).1 (after n p w).2 = run p w.
Proof.
  induction n as [|n IH]; [reflexivity|].
  now rewrite after_last, <- run_step.
Qed.

Lemma world_with_same_oauth_sessions (w : World) :
  with_oauth_sessions (oauth_sessions w) w = w.
Proof. now destruct w. Qed.

(** Deleting a record that is not there leaves the store as it is. *)
Lemma consumed_absent id (w : World) :
  oauth_sessions w !! id = None -> consumed id w = w.
Proof.
  intros Habsent. unfold consumed.
  rewrite delete_id by exact Habsent. apply world_with_same_oauth_sessions.
Qed.

Lemma kv_get_absent {A} t (m : gmap string (entry A)) id :
  m !! id = None -> kv_get t m id = None.
Proof. intros H. unfold kv_get. now rewrite H. Qed.

Lemma step_no_oauth_write {A} (p : prog A) (w : World) id :
  no_oauth_write p -> oauth_sessions w !! id = None ->
  no_oauth_write (step p w).1 /\ oauth_sessions (step p w).2 !! id = None.
Proof.
  intros Hp Habsent. destruct Hp; cbn; auto using no_oauth_write.
  split; [auto|]. rewrite lookup_delete_None. auto.
Qed.

Lemma after_no_oauth_write {A} n (p : prog A) (w : World) id :
  no_oauth_write p -> oauth_sessions w !! id = None ->
  oauth_sessions (after n p w).2 !! id = None.
Proof.
  revert p w. induction n as [|n IH]; intros p w Hp Habsent; [exact Habsent|].
  cbn [after].
  destruct (step_no_oauth_write p w id Hp Habsent) as [Hp' Habsent'].
  destruct (step p w) as [p' w']. now apply IH.
Qed.

Lemma within_finished {A} (p : prog A) : within 0 p -> finished p = true.
Proof. inversion 1; reflexivity. Qed.

Lemma within_step {A} n (p : prog A) (w : World) :
  within n p -> within (pred n) (step p w).1.
Proof. intros Hp. destruct Hp; cbn; auto using within. Qed.

(** Two programs that make at most [n] and [m] operations have both
    finished once they had [n] and [m] turns. *)
Lemma interleave_finishes {A B} schedule :
  forall n m (p : prog A) (q : prog B) (w : World),
    within n p -> within m q ->
    (n <= turns true schedule)%nat -> (m <= turns false schedule)%nat ->
    finished (interleave schedule p q w).1.1 = true
    /\ finished (interleave schedule p q w).1.2 = true.
Proof.
  induction schedule as [|[|] rest IH]; intros n m p q w Hp Hq Hn Hm.
  - cbn in *. assert (n = O) as -> by lia. assert (m = O) as -> by lia.
    auto using within_finished.
  - cbn [interleave]. pose proof (within_step n p w Hp) as Hp'.
    destruct (step p w) as [p' w']. apply (IH (pred n) m); auto.
    cbn in Hn. lia.
  - cbn [interleave]. pose proof (within_step m q w Hq) as Hq'.
    destruct (step q w) as [q' w']. apply (IH n (pred m)); auto.
    cbn in Hm. lia.
Qed.

(** ** Two programs that race for one handshake record *)

Section Race.

Context {A : Type}.
Variables (P Q : prog A) (w : World) (id : string).
Variables (kP kQ : option OAuthSession -> prog A).

Hypothesis P_reads : P = KvGetAndDeleteOAuth id kP.
Hypothesis Q_reads : Q = KvGetAndDeleteOAuth id kQ.
Hypothesis P_fails : kP None = Throw NotFoundError.
Hypothesis Q_fails : kQ None = Throw NotFoundError.
Hypothesis P_quiet : forall x, no_oauth_write (kP x).
Hypothesis Q_quiet : forall x, no_oauth_write (kQ x).

Lemma absent_after_first n : oauth_sessions (after (S n) P w).2 !! id = None.
Proof.
  rewrite after_S, P_reads. cbn.
  apply after_no_oauth_write; [apply P_quiet|]. cbn. apply lookup_delete_eq.
Qed.

Lemma absent_after_second n : oauth_sessions (after (S n) Q w).2 !! id = None.
Proof.
  rewrite after_S, Q_reads. cbn.
  apply after_no_oauth_write; [apply Q_quiet|]. cbn. apply lookup_delete_eq.
Qed.

(** The read-and-delete of the one that comes second finds nothing and
    changes nothing. *)
Lemma late_read k (wc : World) :
  k None = Throw NotFoundError ->
  oauth_sessions wc !! id = None ->
  step (KvGetAndDeleteOAuth id k) wc
  = (Throw NotFoundError : prog A, wc).
Proof.
  intros Hk Habsent. cbn.
  rewrite (kv_get_absent _ _ _ Habsent), Hk.
  f_equal. now apply consumed_absent.
Qed.

Lemma race_step_first p q wc :
  race P Q w p q wc -> race P Q w (step p wc).1 q (step p wc).2.
Proof.
  intros [|n q' Hq|n p' [->| ->]].
  - replace (step P w) with (after 1 P w) by (cbn; now destruct (step P w)).
    apply race_first. now left.
  - rewrite <- after_last. now apply race_first.
  - rewrite P_reads, late_read; auto using absent_after_second.
    apply race_second. now right.
  - cbn. apply race_second. now right.
Qed.

Lemma race_step_second p q wc :
  race P Q w p q wc -> race P Q w p (step q wc).1 (step q wc).2.
Proof.
  intros [|n q' [->| ->]|n p' Hp].
  - replace (step Q w) with (after 1 Q w) by (cbn; now destruct (step Q w)).
    apply race_second. now left.
  - rewrite Q_reads, late_read; auto using absent_after_first.
    apply race_first. now right.
  - cbn. apply race_first. now right.
  - rewrite <- after_last. now apply race_second.
Qed.

Lemma race_interleave schedule :
  forall p q wc,
    race P Q w p q wc ->
    race P Q w (interleave schedule p q wc).1.1
               (interleave schedule p q wc).1.2
               (interleave schedule p q wc).2.
Proof.
  induction schedule as [|[|] rest IH]; intros p q wc Hrace; [exact Hrace| |].
  - cbn [interleave]. apply race_step_first in Hrace.
    destruct (step p wc). now apply IH.
  - cbn [interleave]. apply race_step_second in Hrace.
    destruct (step q wc). now apply IH.
Qed.

(** When both have finished, one of them has run as if it were alone
    and the other one has failed on its read-and-delete. *)
Lemma race_finished p q wc :
  race P Q w p q wc -> finished p = true -> finished q = true ->
  (result p = Some (run P w).1
   /\ result q = Some (inl NotFoundError)
   /\ wc = (run P w).2)
  \/ (result q = Some (run Q w).1
      /\ result p = Some (inl NotFoundError)
      /\ wc = (run Q w).2).
Proof.
  intros [|n q' [->| ->]|n p' [->| ->]] Hp Hq.
  - rewrite P_reads in Hp. discriminate.
  - rewrite Q_reads in Hq. discriminate.
  - left. unfold finished in Hp.
    destruct (result (after (S n) P w).1) as [r|] eqn:Hr; [|discriminate].
    rewrite <- (run_after (S n) P w), (run_result _ _ _ Hr). auto.
  - rewrite P_reads in Hp. discriminate.
  - right. unfold finished in Hq.
    destruct (result (after (S n) Q w).1) as [r|] eqn:Hr; [|discriminate].
    rewrite <- (run_after (S n) Q w), (run_result _ _ _ Hr). auto.
Qed.

End Race.

(** ** The shape of a callback *)

Ltac walk_callback :=
  repeat (cbn;
          match goal with
          | |- forall _, _ => intros ?
          | |- context [match ?x with inl _ => _ | inr _ => _ end] => destruct x
          | |- context [match ?x with Some _ => _ | None => _ end] => destruct x
          | |- context [try ?x] => is_var x; destruct x
          | |- _ => constructor
          end).

(** With a handshake cookie, [handleCallback] starts with the
    read-and-delete of the record named by the cookie, throws the
    not-found error when there is none, makes at most three operations
    after it and never writes a handshake record. *)
Lemma handleCallback_shape request oauthConfig options id :
  getCookies (headers request)
    !! getCookieName OAUTH_COOKIE_NAME (isHttps (url request)) = Some id ->
  exists k,
    handleCallback request oauthConfig options = KvGetAndDeleteOAuth id k
    /\ k None = Throw NotFoundError
    /\ (forall x, no_oauth_write (k x))
    /\ (forall x, within 3 (k x)).
Proof.
  intros Hcookie. unfold handleCallback. rewrite Hcookie. cbn.
  eexists. split; [reflexivity|]. split; [reflexivity|].
  split; unfold setCookie; walk_callback.
Qed.

(** What [handleCallback] does on a request that carries a handshake
    cookie, case by case. *)
Lemma run_handleCallback request oauthConfig options w id :
  getCookies (headers request)
    !! getCookieName OAUTH_COOKIE_NAME (isHttps (url request)) = Some id ->
  run (handleCallback request oauthConfig options) w =
  match kv_get (now w) (oauth_sessions w) id with
  | None => (inl NotFoundError, consumed id w)
  | Some oauthSession =>
      match tokenEndpoint w (client_calls w) oauthConfig (url request) oauthSession with
      | inl e => (inl e, exchanged id w)
      | inr tokens' =>
          let sessionId' := uuids w (uuids_used w) in
          let cookie := callbackCookie request sessionId' options in
          match cookie_check cookie with
          | Some e => (inl e, drawn id w)
          | None =>
              (inr {| response :=
                        {| status := 302;
                           location := Some (successUrl oauthSession);
                           setCookies := [cookie] |};
                      sessionId := sessionId';
                      tokens := tokens' |},
               signed_in id (siteSessionExpireIn cookie) w)
          end
      end
  end.
Proof.
  intros Hcookie. unfold handleCallback. rewrite Hcookie. cbn.
  destruct (kv_get (now w) (oauth_sessions w) id) as [oauthSession|]; cbn; [|reflexivity].
  destruct (tokenEndpoint w (client_calls w) oauthConfig (url request) oauthSession)
    as [e|tokens']; cbn; [reflexivity|].
  unfold setCookie.
  destruct (cookie_check _) as [e|]; cbn; reflexivity.
Qed.

(** ** The callback without a handshake cookie *)

Lemma handleCallback_without_cookie request oauthConfig options :
  getCookies (headers request)
    !! getCookieName OAUTH_COOKIE_NAME (isHttps (url request)) = None ->
  handleCallback request oauthConfig options = Throw (Error "OAuth cookie not found").
Proof. intros Hcookie. unfold handleCallback. now rewrite Hcookie. Qed.

(** C4: on a request that carries no OAuth-handshake cookie under the
    name computed for its scheme, [handleCallback] is a bare throw of the
    missing-cookie error: it makes no operation on the store, the OAuth
    client or the random generator, so no handshake record is consumed,
    no token exchange is attempted and no site session is created, and
    the world is left as it was. *)
Theorem handleCallback_missing_cookie request oauthConfig options :
  getCookies (headers request)
    !! getCookieName OAUTH_COOKIE_NAME (isHttps (url request)) = None ->
  handleCallback request oauthConfig options = Throw (Error "OAuth cookie not found")
  /\ within 0 (handleCallback request oauthConfig options)
  /\ forall w,
       run (handleCallback request oauthConfig options) w
       = (inl (Error "OAuth cookie not found"), w)
       /\ step (handleCallback request oauthConfig options) w
          = (Throw (Error "OAuth cookie not found"), w).
Proof.
  intros Hcookie. rewrite (handleCallback_without_cookie _ _ _ Hcookie).
  repeat split. constructor.
Qed.

(** ** The callback with a handshake cookie *)

Section Callback.

Variable request : Request.
Variable oauthConfig : OAuth2ClientConfig.
Variable options : option HandleCallbackOptions.
Variable w : World.
Variable id : string.
Variable oauthSession : OAuthSession.

Hypothesis cookie_found :
  getCookies (headers request)
    !! getCookieName OAUTH_COOKIE_NAME (isHttps (url request)) = Some id.
Hypothesis record_found :
  kv_get (now w) (oauth_sessions w) id = Some oauthSession.

(** C5: when the token exchange fails after the handshake cookie was
    found and the handshake record consumed, [handleCallback] throws the
    error of the exchange and returns no response (so no cookie is set);
    the store differs from the one before only in the deleted handshake
    record: no site session record is created, and no random id is
    drawn. *)
Theorem handleCallback_exchange_failure e :
  tokenEndpoint w (client_calls w) oauthConfig (url request) oauthSession = inl e ->
  exists w',
    run (handleCallback request oauthConfig options) w = (inl e, w')
    /\ oauth_sessions w' = delete id (oauth_sessions w)
    /\ site_sessions w' = site_sessions w
    /\ uuids_used w' = uuids_used w
    /\ now w' = now w.
Proof.
  intros Hexchange. exists (exchanged id w).
  rewrite (run_handleCallback _ _ _ _ _ cookie_found), record_found, Hexchange.
  repeat split.
Qed.

Variable tokens' : Tokens.

Hypothesis exchange_succeeds :
  tokenEndpoint w (client_calls w) oauthConfig (url request) oauthSession = inr tokens'.
Hypothesis cookie_accepted :
  cookie_check (callbackCookie request (uuids w (uuids_used w)) options) = None.

Lemma callback_run_returns :
  run (handleCallback request oauthConfig options) w =
  (inr {| response :=
            {| status := 302;
               location := Some (successUrl oauthSession);
               setCookies := [callbackCookie request (uuids w (uuids_used w)) options] |};
          sessionId := uuids w (uuids_used w);
          tokens := tokens' |},
   signed_in id
     (siteSessionExpireIn (callbackCookie request (uuids w (uuids_used w)) options)) w).
Proof.
  rewrite (run_handleCallback _ _ _ _ _ cookie_found), record_found, exchange_succeeds.
  cbv zeta. now rewrite cookie_accepted.
Qed.

(** The fields of the cookie of the callback: the value computed from
    the request, unless the cookie options carry the property. *)
Lemma callbackCookie_fields sessionId' :
  let c := callbackCookie request sessionId' options in
  name c = over (present (getCookieName SITE_COOKIE_NAME (isHttps (url request))))
                (overridden name options)
  /\ value c = over (present sessionId') (overridden value options)
  /\ secure c = over (present (isHttps (url request))) (overridden secure options)
  /\ maxAge c = over (maxAge COOKIE_BASE) (overridden maxAge options).
Proof.
  unfold callbackCookie, overridden.
  destruct (cookieOptions_of options) as [o|]; cbn; repeat split.
Qed.




(** C9: with [maxAge: 0] in the cookie options, the site session record
    is written without expiry, while the cookie that is set carries
    [maxAge] zero. *)
Theorem handleCallback_maxAge_zero :
  overridden maxAge options = present 0 ->
  exists res w' c,
    run (handleCallback request oauthConfig options) w = (inr res, w')
    /\ site_sessions w' !! sessionId res
       = Some {| stored := tt; expiresAt := None |}
    /\ setCookies (response res) = [c]
    /\ maxAge c = present 0.
Proof.
  intros Hzero.
  eexists _, _, _. split; [apply callback_run_returns|]. cbn.
  destruct (callbackCookie_fields (uuids w (uuids_used w))) as (_ & _ & _ & Hm).
  rewrite Hzero in Hm. cbn in Hm.
  repeat split; [|exact Hm].
  unfold kv_set, siteSessionExpireIn. rewrite lookup_insert_eq, Hm. reflexivity.
Qed.

End Callback.

(** ** Two callbacks at once *)

(** A callback that reads a live handshake record goes on to the token
    exchange, and makes it once. *)
Lemma run_handleCallback_exchanges request oauthConfig options w id oauthSession :
  getCookies (headers request)
    !! getCookieName OAUTH_COOKIE_NAME (isHttps (url request)) = Some id ->
  kv_get (now w) (oauth_sessions w) id = Some oauthSession ->
  client_calls (run (handleCallback request oauthConfig options) w).2
  = S (client_calls w).
Proof.
  intros Hcookie Hrecord.
  rewrite (run_handleCallback _ _ _ _ _ Hcookie), Hrecord.
  destruct (tokenEndpoint w (client_calls w) oauthConfig (url request) oauthSession);
    [reflexivity|].
  cbv zeta. destruct (cookie_check _); reflexivity.
Qed.

(** C2: two callback requests that present the same handshake cookie are
    handled at once, their operations interleaved in any order, until
    both have finished.  Then one of them has run exactly as if it were
    alone, and the other one has read no record and failed with the
    not-found error, without any effect of its own.  So the two never
    both return; when the record is live, the token exchange is made
    once, by the one that read the record; and when moreover the token
    exchange and the cookie of either request would go through, exactly
    one returns and the other one fails with not-found. *)
Theorem concurrent_callbacks request1 request2 oauthConfig1 oauthConfig2
    options1 options2 w id schedule :
  getCookies (headers request1)
    !! getCookieName OAUTH_COOKIE_NAME (isHttps (url request1)) = Some id ->
  getCookies (headers request2)
    !! getCookieName OAUTH_COOKIE_NAME (isHttps (url request2)) = Some id ->
  (4 <= turns true schedule)%nat ->
  (4 <= turns false schedule)%nat ->
  let P := handleCallback request1 oauthConfig1 options1 in
  let Q := handleCallback request2 oauthConfig2 options2 in
  let p := (interleave schedule P Q w).1.1 in
  let q := (interleave schedule P Q w).1.2 in
  let w' := (interleave schedule P Q w).2 in
  ((result p = Some (run P w).1
    /\ result q = Some (inl NotFoundError)
    /\ w' = (run P w).2)
   \/ (result q = Some (run Q w).1
       /\ result p = Some (inl NotFoundError)
       /\ w' = (run Q w).2))
  /\ ~ (exists res1 res2, result p = Some (inr res1) /\ result q = Some (inr res2))
  /\ (forall oauthSession,
        kv_get (now w) (oauth_sessions w) id = Some oauthSession ->
        client_calls w' = S (client_calls w))
  /\ (forall oauthSession tokens1 tokens2,
        kv_get (now w) (oauth_sessions w) id = Some oauthSession ->
        tokenEndpoint w (client_calls w) oauthConfig1 (url request1) oauthSession
        = inr tokens1 ->
        tokenEndpoint w (client_calls w) oauthConfig2 (url request2) oauthSession
        = inr tokens2 ->
        cookie_check (callbackCookie request1 (uuids w (uuids_used w)) options1) = None ->
        cookie_check (callbackCookie request2 (uuids w (uuids_used w)) options2) = None ->
        (exists res, result p = Some (inr res)
                     /\ result q = Some (inl NotFoundError))
        \/ (exists res, result q = Some (inr res)
                        /\ result p = Some (inl NotFoundError))).
Proof.
  intros Hcookie1 Hcookie2 Hturns1 Hturns2 P Q p q w'.
  destruct (handleCallback_shape request1 oauthConfig1 options1 id Hcookie1)
    as (kP & HP & HPfail & HPquiet & HPwithin).
  destruct (handleCallback_shape request2 oauthConfig2 options2 id Hcookie2)
    as (kQ & HQ & HQfail & HQquiet & HQwithin).
  fold P in HP. fold Q in HQ.
  assert (within 4 P) as HP4 by (rewrite HP; now constructor).
  assert (within 4 Q) as HQ4 by (rewrite HQ; now constructor).
  destruct (interleave_finishes schedule 4 4 P Q w HP4 HQ4 Hturns1 Hturns2)
    as [Hp Hq].
  assert (Hlin := race_finished P Q w id kP kQ HP HQ p q w'
                    (race_interleave P Q w id kP kQ HP HQ HPfail HQfail
                       HPquiet HQquiet schedule P Q w (race_start P Q w))
                    Hp Hq).
  split; [exact Hlin|]. split; [|split].
  - intros (res1 & res2 & Hres1 & Hres2).
    destruct Hlin as [(_ & Hq' & _)|(_ & Hp' & _)]; congruence.
  - intros oauthSession Hrecord.
    destruct Hlin as [(_ & _ & ->)|(_ & _ & ->)];
      eauto using run_handleCallback_exchanges.
  - intros oauthSession tokens1 tokens2 Hrecord Hex1 Hex2 Hck1 Hck2.
    destruct Hlin as [(Hp' & Hq' & _)|(Hq' & Hp' & _)].
    + left. unfold P in Hp'.
      rewrite (callback_run_returns _ _ _ _ _ _ Hcookie1 Hrecord _ Hex1 Hck1)
        in Hp'.
      eauto.
    + right. unfold Q in Hq'.
      rewrite (callback_run_returns _ _ _ _ _ _ Hcookie2 Hrecord _ Hex2 Hck2)
        in Hq'.
      eauto.
Qed.

(** ** The handshake record, from sign-in to callback *)

Lemma run_getAndDeleteOAuthSession id w :
  run (getAndDeleteOAuthSession id) w =
  (match kv_get (now w) (oauth_sessions w) id with
   | Some s => inr s
   | None => inl NotFoundError
   end, consumed id w).
Proof.
  cbn. now destruct (kv_get (now w) (oauth_sessions w) id).
Qed.

Lemma run_signIn request oauthConfig options w :
  run (signIn request oauthConfig options) w =
  (let '(uri, state', codeVerifier') :=
     authorizationEndpoint w (client_calls w) oauthConfig (options ≫= urlParams) in
   let record :=
     {| state := state'; codeVerifier := codeVerifier';
        successUrl := default (default "/" (referer (headers request)))
                              (options ≫= successUrlOption) |} in
   let cookie :=
     buildCookie OAUTH_COOKIE_NAME (uuids w (uuids_used w))
       (isHttps (url request)) None in
   match cookie_check cookie with
   | Some e => (inl e, started record w)
   | None =>
       (inr {| status := 302; location := Some uri; setCookies := [cookie] |},
        started record w)
   end).
Proof.
  unfold signIn. cbn.
  destruct (authorizationEndpoint w (client_calls w) oauthConfig (options ≫= urlParams))
    as [[uri state'] codeVerifier'].
  cbn. unfold setCookie.
  destruct (cookie_check _); reflexivity.
Qed.

(** C3: the handshake record that a successful sign-in wrote, under the
    id that its cookie carries, is returned by the read-and-delete once,
    in any world that still holds it and whose clock is before the end
    of its ten minutes; the same read-and-delete made again fails with
    the not-found error, whenever it is made; so does the first one made
    when the ten minutes are over, and so does any read-and-delete of an
    id that the store does not hold or that has expired. *)
Theorem handshake_consumed_once request oauthConfig options w resp w1 :
  run (signIn request oauthConfig options) w = (inr resp, w1) ->
  (exists id record c,
     setCookies resp = [c] /\ value c = present id
     /\ oauth_sessions w1 !! id
        = Some {| stored := record;
                  expiresAt := Some (now w + OAUTH_SESSION_TTL) |}
     /\ authorizationEndpoint w (client_calls w) oauthConfig (options ≫= urlParams)
          = (default "" (location resp), state record, codeVerifier record)
     /\ successUrl record
        = default (default "/" (referer (headers request)))
                  (options ≫= successUrlOption)
     /\ (forall w2,
           oauth_sessions w2 !! id = oauth_sessions w1 !! id ->
           now w2 < now w + OAUTH_SESSION_TTL ->
           run (getAndDeleteOAuthSession id) w2 = (inr record, consumed id w2)
           /\ forall d,
                (run (getAndDeleteOAuthSession id) (elapse d (consumed id w2))).1
                = inl NotFoundError)
     /\ (forall w2,
           oauth_sessions w2 !! id = oauth_sessions w1 !! id ->
           now w + OAUTH_SESSION_TTL <= now w2 ->
           (run (getAndDeleteOAuthSession id) w2).1 = inl NotFoundError))
  /\ (forall w0 id0,
        oauth_sessions w0 !! id0 = None ->
        (run (getAndDeleteOAuthSession id0) w0).1 = inl NotFoundError)
  /\ (forall w0 id0 e deadline,
        oauth_sessions w0 !! id0 = Some e ->
        expiresAt e = Some deadline -> deadline <= now w0 ->
        (run (getAndDeleteOAuthSession id0) w0).1 = inl NotFoundError).
Proof.
  intros Hrun. rewrite run_signIn in Hrun.
  destruct (authorizationEndpoint w (client_calls w) oauthConfig (options ≫= urlParams))
    as [[uri state'] codeVerifier'].
  cbv zeta in Hrun.
  destruct (cookie_check _); [discriminate|].
  injection Hrun as <- <-.
  assert (forall record,
            oauth_sessions (started record w) !! uuids w (uuids_used w)
            = Some {| stored := record;
                      expiresAt := Some (now w + OAUTH_SESSION_TTL) |}) as Hstored.
  { intros record. cbn. unfold kv_set. apply lookup_insert_eq. }
  split; [|split].
  - eexists (uuids w (uuids_used w)), _, _.
    split; [reflexivity|]. split; [reflexivity|].
    split; [apply Hstored|].
    split; [reflexivity|]. split; [reflexivity|]. split.
    + intros w2 Hsame Hbefore. split.
      * rewrite run_getAndDeleteOAuthSession.
        unfold kv_get. rewrite Hsame, Hstored. unfold live. cbn.
        destruct (Z.ltb_spec (now w2) (now w + OAUTH_SESSION_TTL)); [reflexivity|lia].
      * intros d. rewrite run_getAndDeleteOAuthSession. cbn.
        unfold kv_get. now rewrite lookup_delete_eq.
    + intros w2 Hsame Hpast. rewrite run_getAndDeleteOAuthSession.
      unfold kv_get. rewrite Hsame, Hstored. unfold live. cbn.
      destruct (Z.ltb_spec (now w2) (now w + OAUTH_SESSION_TTL)); [lia|reflexivity].
  - intros w0 id0 Habsent. rewrite run_getAndDeleteOAuthSession. cbn.
    now rewrite (kv_get_absent _ _ _ Habsent).
  - intros w0 id0 e deadline Hentry Hdeadline Hpast.
    rewrite run_getAndDeleteOAuthSession. cbn.
    unfold kv_get, live. rewrite Hentry, Hdeadline.
    destruct (Z.ltb_spec (now w0) deadline); [lia|reflexivity].
Qed.

(** ** Cookie names *)

Lemma run_handleCallback_returns request oauthConfig options w res w' :
  run (handleCallback request oauthConfig options) w = (inr res, w') ->
  setCookies (response res) = [callbackCookie request (sessionId res) options].
Proof.
  intros Hrun.
  destruct (getCookies (headers request)
              !! getCookieName OAUTH_COOKIE_NAME (isHttps (url request)))
    as [id|] eqn:Hcookie.
  - rewrite (run_handleCallback _ _ _ _ _ Hcookie) in Hrun.
    destruct (kv_get (now w) (oauth_sessions w) id); [|discriminate].
    destruct (tokenEndpoint w (client_calls w) oauthConfig (url request) _);
      [discriminate|].
    cbv zeta in Hrun. destruct (cookie_check _); [discriminate|].
    now injection Hrun as <- <-.
  - rewrite (handleCallback_without_cookie _ _ _ Hcookie) in Hrun.
    cbn in Hrun. discriminate.
Qed.

(** C8: the name of a cookie is a function of its purpose and of the
    scheme alone, so for two requests of the same scheme the one who
    writes a cookie and the one who reads it compute the same name: the
    callback finds the handshake cookie that sign-in has set, and a
    lookup of the site cookie (as session lookup and sign-out make it)
    finds the cookie that the callback has set when no option renamed
    it. *)
Theorem cookie_name_written_and_read (writer reader : Request) :
  isHttps (url writer) = isHttps (url reader) ->
  (forall purpose,
     getCookieName purpose (isHttps (url writer))
     = getCookieName purpose (isHttps (url reader)))
  /\ (forall oauthConfig options w resp w1 jar,
        run (signIn writer oauthConfig options) w = (inr resp, w1) ->
        getCookies (headers reader) = sent_back resp jar ->
        exists id,
          is_Some (oauth_sessions w1 !! id)
          /\ getCookies (headers reader)
               !! getCookieName OAUTH_COOKIE_NAME (isHttps (url reader)) = Some id
          /\ forall oauthConfig' options',
               exists k,
                 handleCallback reader oauthConfig' options'
                 = KvGetAndDeleteOAuth id k)
  /\ (forall oauthConfig options w res w' jar,
        run (handleCallback writer oauthConfig options) w = (inr res, w') ->
        overridden name options = absent ->
        overridden value options = absent ->
        getCookies (headers reader) = sent_back (response res) jar ->
        readCookie (headers reader) SITE_COOKIE_NAME (isHttps (url reader))
        = Some (sessionId res)).
Proof.
  intros Hscheme. split; [|split].
  - intros purpose. now rewrite Hscheme.
  - intros oauthConfig options w resp w1 jar Hrun Hjar.
    rewrite run_signIn in Hrun.
    destruct (authorizationEndpoint w (client_calls w) oauthConfig (options ≫= urlParams))
      as [[uri state'] codeVerifier'].
    cbv zeta in Hrun. destruct (cookie_check _); [discriminate|].
    injection Hrun as <- <-.
    assert (getCookies (headers reader)
              !! getCookieName OAUTH_COOKIE_NAME (isHttps (url reader))
            = Some (uuids w (uuids_used w))) as Hread.
    { rewrite Hjar, <- Hscheme. cbn. apply lookup_insert_eq. }
    exists (uuids w (uuids_used w)). split; [|split].
    + cbn. unfold kv_set. rewrite lookup_insert_eq. eauto.
    + exact Hread.
    + intros oauthConfig' options'.
      destruct (handleCallback_shape reader oauthConfig' options' _ Hread)
        as (k & Hk & _).
      eauto.
  - intros oauthConfig options w res w' jar Hrun Hname Hvalue Hjar.
    unfold readCookie. rewrite Hjar, <- Hscheme.
    unfold sent_back. rewrite (run_handleCallback_returns _ _ _ _ _ _ Hrun).
    destruct (callbackCookie_fields writer options (sessionId res))
      as (Hn & Hv & _).
    cbn. rewrite Hn, Hv, Hname, Hvalue. cbn. apply lookup_insert_eq.
Qed.

(** ** More on the callback *)

Lemma run_handleCallback_consumes request oauthConfig options w id :
  getCookies (headers request)
    !! getCookieName OAUTH_COOKIE_NAME (isHttps (url request)) = Some id ->
  oauth_sessions (run (handleCallback request oauthConfig options) w).2 !! id = None.
Proof.
  intros Hcookie. rewrite (run_handleCallback _ _ _ _ _ Hcookie).
  destruct (kv_get (now w) (oauth_sessions w) id) as [oauthSession|];
    [|apply lookup_delete_eq].
  destruct (tokenEndpoint w (client_calls w) oauthConfig (url request) oauthSession);
    [apply lookup_delete_eq|].
  cbv zeta. destruct (cookie_check _); apply lookup_delete_eq.
Qed.

(** X1: a callback whose handshake cookie names a record that the store
    does not hold, or one whose time-to-live is over, fails with the
    not-found error before any token exchange: the OAuth client is not
    called, no random id is drawn and no site session is written. *)
Theorem handleCallback_unknown_handshake request oauthConfig options w id :
  getCookies (headers request)
    !! getCookieName OAUTH_COOKIE_NAME (isHttps (url request)) = Some id ->
  (oauth_sessions w !! id = None
   \/ exists e deadline,
        oauth_sessions w !! id = Some e
        /\ expiresAt e = Some deadline /\ deadline <= now w) ->
  exists w',
    run (handleCallback request oauthConfig options) w = (inl NotFoundError, w')
    /\ client_calls w' = client_calls w
    /\ uuids_used w' = uuids_used w
    /\ site_sessions w' = site_sessions w
    /\ oauth_sessions w' = delete id (oauth_sessions w).
Proof.
  intros Hcookie Hgone. exists (consumed id w).
  rewrite (run_handleCallback _ _ _ _ _ Hcookie).
  assert (kv_get (now w) (oauth_sessions w) id = None) as ->.
  { destruct Hgone as [Habsent|(e & deadline & Hentry & Hdeadline & Hpast)].
    - now apply kv_get_absent.
    - unfold kv_get, live. rewrite Hentry, Hdeadline.
      destruct (Z.ltb_spec (now w) deadline); [lia|reflexivity]. }
  repeat split.
Qed.

(** X2: when std's [setCookie] throws on the cookie of the callback, the
    callback throws that error and writes no site session, although the
    handshake record is consumed, the token exchange is made and a
    random id is drawn: the cookie is set before the session is
    written. *)
Theorem handleCallback_cookie_rejected request oauthConfig options w id
    oauthSession tokens' e :
  getCookies (headers request)
    !! getCookieName OAUTH_COOKIE_NAME (isHttps (url request)) = Some id ->
  kv_get (now w) (oauth_sessions w) id = Some oauthSession ->
  tokenEndpoint w (client_calls w) oauthConfig (url request) oauthSession
  = inr tokens' ->
  cookie_check (callbackCookie request (uuids w (uuids_used w)) options) = Some e ->
  exists w',
    run (handleCallback request oauthConfig options) w = (inl e, w')
    /\ site_sessions w' = site_sessions w
    /\ oauth_sessions w' = delete id (oauth_sessions w)
    /\ uuids_used w' = S (uuids_used w)
    /\ client_calls w' = S (client_calls w).
Proof.
  intros Hcookie Hrecord Hexchange Hcheck. exists (drawn id w).
  rewrite (run_handleCallback _ _ _ _ _ Hcookie), Hrecord, Hexchange.
  cbv zeta. rewrite Hcheck. repeat split.
Qed.

(** X3: once a callback has presented a handshake cookie, whatever
    became of it (return, failed exchange, rejected cookie, record not
    found), a callback that presents the same handshake id afterwards
    fails with the not-found error and leaves the world as it is. *)
Theorem handleCallback_replay request1 request2 oauthConfig1 oauthConfig2
    options1 options2 w id :
  getCookies (headers request1)
    !! getCookieName OAUTH_COOKIE_NAME (isHttps (url request1)) = Some id ->
  getCookies (headers request2)
    !! getCookieName OAUTH_COOKIE_NAME (isHttps (url request2)) = Some id ->
  let w1 := (run (handleCallback request1 oauthConfig1 options1) w).2 in
  run (handleCallback request2 oauthConfig2 options2) w1 = (inl NotFoundError, w1).
Proof.
  intros Hcookie1 Hcookie2 w1.
  assert (oauth_sessions w1 !! id = None) as Habsent
    by now apply run_handleCallback_consumes.
  rewrite (run_handleCallback _ _ _ _ _ Hcookie2).
  now rewrite (kv_get_absent _ _ _ Habsent), (consumed_absent _ _ Habsent).
Qed.

(** X4: what a callback never does, whatever the request and whatever
    its outcome: it does not move the clock of the store, it writes no
    handshake record and touches none but the one that its cookie
    names, it touches no site session but the one under the next random
    id, and it draws at most one random id and calls the OAuth client at
    most once. *)
Theorem handleCallback_frame request oauthConfig options w :
  let w' := (run (handleCallback request oauthConfig options) w).2 in
  now w' = now w
  /\ (forall id',
        getCookies (headers request)
          !! getCookieName OAUTH_COOKIE_NAME (isHttps (url request)) <> Some id' ->
        oauth_sessions w' !! id' = oauth_sessions w !! id')
  /\ (forall id', is_Some (oauth_sessions w' !! id') ->
                  oauth_sessions w' !! id' = oauth_sessions w !! id')
  /\ (forall sid, sid <> uuids w (uuids_used w) ->
                  site_sessions w' !! sid = site_sessions w !! sid)
  /\ (uuids_used w' = uuids_used w \/ uuids_used w' = S (uuids_used w))
  /\ (client_calls w' = client_calls w \/ client_calls w' = S (client_calls w)).
Proof.
  destruct (getCookies (headers request)
              !! getCookieName OAUTH_COOKIE_NAME (isHttps (url request)))
    as [id|] eqn:Hcookie.
  - rewrite (run_handleCallback _ _ _ _ _ Hcookie).
    assert (forall id', Some id <> Some id' ->
              delete id (oauth_sessions w) !! id' = oauth_sessions w !! id') as Hother.
    { intros id' Hne. apply lookup_delete_ne. congruence. }
    assert (forall id', is_Some (delete id (oauth_sessions w) !! id') ->
              delete id (oauth_sessions w) !! id' = oauth_sessions w !! id') as Hkept.
    { intros id' Hsome. apply lookup_delete_ne. intros ->.
      rewrite lookup_delete_eq in Hsome. now destruct Hsome. }
    destruct (kv_get (now w) (oauth_sessions w) id) as [oauthSession|];
      [|cbn; repeat split; auto].
    destruct (tokenEndpoint w (client_calls w) oauthConfig (url request) oauthSession);
      [cbn; repeat split; auto|].
    cbv zeta. destruct (cookie_check _); cbn; repeat split; auto.
    intros sid Hne. unfold kv_set. now rewrite lookup_insert_ne.
  - rewrite (handleCallback_without_cookie _ _ _ Hcookie). cbn.
    repeat split; auto.
Qed.

(** X7: the options of a callback bear on the cookie and on the
    time-to-live of the site session, and on nothing else: two callbacks
    that differ in their options alone leave the same handshake records
    and the same calls of the OAuth client, end alike when the callback
    ends before the cookie is built, and when both return they return
    the same tokens, the same session id and the same redirect. *)
Theorem handleCallback_options_scope request oauthConfig options1 options2 w :
  let r1 := run (handleCallback request oauthConfig options1) w in
  let r2 := run (handleCallback request oauthConfig options2) w in
  oauth_sessions r1.2 = oauth_sessions r2.2
  /\ client_calls r1.2 = client_calls r2.2
  /\ (uuids_used r1.2 = uuids_used w -> r1 = r2)
  /\ (forall res1 res2,
        r1.1 = inr res1 -> r2.1 = inr res2 ->
        tokens res1 = tokens res2
        /\ sessionId res1 = sessionId res2
        /\ status (response res1) = status (response res2)
        /\ location (response res1) = location (response res2)).
Proof.
  cbv zeta.
  destruct (getCookies (headers request)
              !! getCookieName OAUTH_COOKIE_NAME (isHttps (url request)))
    as [id|] eqn:Hcookie.
  - rewrite !(run_handleCallback _ _ _ _ _ Hcookie).
    destruct (kv_get (now w) (oauth_sessions w) id) as [oauthSession|];
      [|refine (conj _ (conj _ (conj _ _))); try reflexivity;
        intros res1 res2 H1; discriminate].
    destruct (tokenEndpoint w (client_calls w) oauthConfig (url request) oauthSession);
      [refine (conj _ (conj _ (conj _ _))); try reflexivity;
       intros res1 res2 H1; discriminate|].
    cbv zeta.
    destruct (cookie_check (callbackCookie request _ options1));
      destruct (cookie_check (callbackCookie request _ options2));
      refine (conj _ (conj _ (conj _ _))); try reflexivity;
      try (cbn; intros Hused; lia);
      try (intros res1 res2 H1 H2; cbn in H1, H2; discriminate).
    intros res1 res2 H1 H2. cbn in H1, H2.
    injection H1 as <-. injection H2 as <-. repeat split.
  - rewrite !(handleCallback_without_cookie _ _ _ Hcookie).
    refine (conj _ (conj _ (conj _ _))); try reflexivity.
    intros res1 res2 H1. discriminate.
Qed.


(** X6: an own [maxAge] property that holds [undefined] in the cookie
    options erases the [maxAge] of the defaults: the cookie is set
    without [maxAge] and the site session is written without expiry,
    whatever the defaults say. *)
Theorem handleCallback_maxAge_undefined request oauthConfig options w id
    oauthSession tokens' :
  getCookies (headers request)
    !! getCookieName OAUTH_COOKIE_NAME (isHttps (url request)) = Some id ->
  kv_get (now w) (oauth_sessions w) id = Some oauthSession ->
  tokenEndpoint w (client_calls w) oauthConfig (url request) oauthSession
  = inr tokens' ->
  cookie_check (callbackCookie request (uuids w (uuids_used w)) options) = None ->
  overridden maxAge options = undefined ->
  exists res w' c,
    run (handleCallback request oauthConfig options) w = (inr res, w')
    /\ setCookies (response res) = [c]
    /\ maxAge c = undefined
    /\ site_sessions w' !! sessionId res
       = Some {| stored := tt; expiresAt := None |}.
Proof.
  intros Hcookie Hrecord Hexchange Hcheck Hundefined.
  eexists _, _, _.
  split; [exact (callback_run_returns _ _ _ _ _ _ Hcookie Hrecord _ Hexchange Hcheck)|].
  cbn. split; [reflexivity|].
  destruct (callbackCookie_fields request options (uuids w (uuids_used w)))
    as (_ & _ & _ & Hm).
  rewrite Hundefined in Hm. cbn in Hm.
  split; [exact Hm|].
  unfold kv_set, siteSessionExpireIn. now rewrite lookup_insert_eq, Hm.
Qed.

(** X12: from sign-in to callback.  After a sign-in that succeeded, a
    callback request of the same scheme that carries the cookie of the
    sign-in response returns, within the ten minutes of the handshake
    record and with a provider that grants the exchange, a redirect to
    the URL that the sign-in kept: its [successUrl] option, else the
    [Referer] of the sign-in request, else ["/"].  When the ten minutes
    are over the same callback fails with the not-found error and asks
    the provider for nothing. *)
Theorem signIn_then_callback writer reader oauthConfig signInOptions
    oauthConfig' options w resp w1 jar tokens' :
  isHttps (url writer) = isHttps (url reader) ->
  run (signIn writer oauthConfig signInOptions) w = (inr resp, w1) ->
  getCookies (headers reader) = sent_back resp jar ->
  (forall s, tokenEndpoint w1 (client_calls w1) oauthConfig' (url reader) s
             = inr tokens') ->
  cookie_check (callbackCookie reader (uuids w1 (uuids_used w1)) options) = None ->
  (forall d, d < OAUTH_SESSION_TTL ->
     exists res w2,
       run (handleCallback reader oauthConfig' options) (elapse d w1)
       = (inr res, w2)
       /\ tokens res = tokens'
       /\ location (response res)
          = Some (default (default "/" (referer (headers writer)))
                          (signInOptions ≫= successUrlOption)))
  /\ (forall d, OAUTH_SESSION_TTL <= d ->
        exists w2,
          run (handleCallback reader oauthConfig' options) (elapse d w1)
          = (inl NotFoundError, w2)
          /\ client_calls w2 = client_calls w1).
Proof.
  intros Hscheme Hrun Hjar Hgrant Hcheck.
  rewrite run_signIn in Hrun.
  destruct (authorizationEndpoint w (client_calls w) oauthConfig
              (signInOptions ≫= urlParams)) as [[uri state'] codeVerifier'].
  cbv zeta in Hrun. destruct (cookie_check _) eqn:Hset; [discriminate|].
  injection Hrun as <- <-.
  set (record := {| state := state'; codeVerifier := codeVerifier';
                    successUrl := default (default "/" (referer (headers writer)))
                                          (signInOptions ≫= successUrlOption) |})
    in *.
  assert (getCookies (headers reader)
            !! getCookieName OAUTH_COOKIE_NAME (isHttps (url reader))
          = Some (uuids w (uuids_used w))) as Hread.
  { rewrite Hjar, <- Hscheme. cbn. apply lookup_insert_eq. }
  assert (forall d,
            kv_get (now (elapse d (started record w)))
              (oauth_sessions (elapse d (started record w)))
              (uuids w (uuids_used w))
            = if now w + d <? now w + OAUTH_SESSION_TTL then Some record else None)
    as Hget.
  { intros d. cbn. unfold kv_get, kv_set. now rewrite lookup_insert_eq. }
  split.
  - intros d Hd. eexists _, _. split.
    + apply (callback_run_returns reader oauthConfig' options
               (elapse d (started record w)) (uuids w (uuids_used w)) record Hread).
      * rewrite Hget.
        destruct (Z.ltb_spec (now w + d) (now w + OAUTH_SESSION_TTL));
          [reflexivity|lia].
      * apply Hgrant.
      * exact Hcheck.
    + split; reflexivity.
  - intros d Hd. eexists. rewrite (run_handleCallback _ _ _ _ _ Hread), Hget.
    destruct (Z.ltb_spec (now w + d) (now w + OAUTH_SESSION_TTL)); [lia|].
    split; reflexivity.
Qed.

(** X13: two callbacks, one after the other, for two handshake records:
    the second one still finds its record, and when it returns, its
    session id is the random id after the one of the first; the site
    session of the first callback is left as it was written unless the
    random generator repeats itself. *)
Theorem handleCallback_twice request1 request2 oauthConfig1 oauthConfig2
    options1 options2 w id1 id2 oauthSession1 oauthSession2 tokens1 tokens2 :
  getCookies (headers request1)
    !! getCookieName OAUTH_COOKIE_NAME (isHttps (url request1)) = Some id1 ->
  getCookies (headers request2)
    !! getCookieName OAUTH_COOKIE_NAME (isHttps (url request2)) = Some id2 ->
  id1 <> id2 ->
  kv_get (now w) (oauth_sessions w) id1 = Some oauthSession1 ->
  kv_get (now w) (oauth_sessions w) id2 = Some oauthSession2 ->
  tokenEndpoint w (client_calls w) oauthConfig1 (url request1) oauthSession1
  = inr tokens1 ->
  tokenEndpoint w (S (client_calls w)) oauthConfig2 (url request2) oauthSession2
  = inr tokens2 ->
  cookie_check (callbackCookie request1 (uuids w (uuids_used w)) options1) = None ->
  cookie_check (callbackCookie request2 (uuids w (S (uuids_used w))) options2)
  = None ->
  exists res1 w1 res2 w2,
    run (handleCallback request1 oauthConfig1 options1) w = (inr res1, w1)
    /\ run (handleCallback request2 oauthConfig2 options2) w1 = (inr res2, w2)
    /\ sessionId res1 = uuids w (uuids_used w)
    /\ sessionId res2 = uuids w (S (uuids_used w))
    /\ location (response res2) = Some (successUrl oauthSession2)
    /\ is_Some (site_sessions w2 !! sessionId res2)
    /\ (sessionId res1 <> sessionId res2 ->
        site_sessions w2 !! sessionId res1 = site_sessions w1 !! sessionId res1
        /\ is_Some (site_sessions w2 !! sessionId res1)).
Proof.
  intros Hcookie1 Hcookie2 Hne Hrecord1 Hrecord2 Hex1 Hex2 Hck1 Hck2.
  eexists _, _, _, _.
  split; [exact (callback_run_returns _ _ _ _ _ _ Hcookie1 Hrecord1 _ Hex1 Hck1)|].
  split.
  { apply (callback_run_returns request2 oauthConfig2 options2 _ id2 oauthSession2
             Hcookie2).
    - cbn. unfold kv_get. rewrite lookup_delete_ne by congruence. exact Hrecord2.
    - exact Hex2.
    - exact Hck2. }
  cbn. split; [reflexivity|]. split; [reflexivity|]. split; [reflexivity|].
  unfold kv_set. split; [rewrite lookup_insert_eq; eauto|].
  intros Hdistinct. rewrite lookup_insert_ne by congruence.
  split; [reflexivity|]. rewrite lookup_insert_eq. eauto.
Qed.

End Core.

(** ** The bound helpers *)



(** ** The demo server *)

Section DemoProperties.

Variable Client : Type.
Variable AccessToken : Type.
Variable Outcome : Type.
Variable outcome_response : Outcome -> Response.
Variable client : Client.
Variable getSessionAccessToken : Client -> string -> prog AccessToken.
Variable getSessionId : Request -> option string.
Variable handleCallback' : Request -> Client -> prog Outcome.
Variable signIn' : Request -> Client -> prog Response.
Variable signOut : Request -> prog Response.
Variable method : Request -> string.
Variable pathname : string -> string.
Variable anonymousBody : string.
Variable signedInBody : AccessToken -> string.

Local Abbreviation serve :=
  (handler Client AccessToken Outcome outcome_response client
     getSessionAccessToken getSessionId handleCallback' signIn' signOut
     method pathname anonymousBody signedInBody).

(** X9: a request whose method is not GET, and a GET request for a path
    other than the four routes, is answered with 404 at once: neither
    the session lookup nor any of the flows runs, so such a request can
    neither consume a handshake record nor end a session. *)
Theorem handler_not_found request :
  method request <> "GET"
  \/ (pathname (url request) <> "/"
      /\ pathname (url request) <> "/signin"
      /\ pathname (url request) <> "/callback"
      /\ pathname (url request) <> "/signout") ->
  serve request = Ret (Page 404 None None)
  /\ forall w, run (serve request) w = (inr (Page 404 None None), w).
Proof.
  intros Hnot.
  assert (serve request = Ret (Page 404 None None)) as ->; [|split; reflexivity].
  unfold handler.
  destruct (String.eqb_spec (method request) "GET") as [Hget|Hother]; cbn;
    [|reflexivity].
  destruct Hnot as [Hmethod|(Hindex & Hsignin & Hcallback & Hsignout)];
    [contradiction|].
  apply String.eqb_neq in Hindex, Hsignin, Hcallback, Hsignout.
  now rewrite Hindex, Hsignin, Hcallback, Hsignout.
Qed.

(** X10: a GET request for [/callback] is answered with the response of
    [handleCallback] and nothing else of its result; when
    [handleCallback] throws, the handler throws the same error, for it
    catches none. *)
Theorem handler_callback_route request w :
  method request = "GET" ->
  pathname (url request) = "/callback" ->
  run (serve request) w =
  match run (handleCallback' request client) w with
  | (inr outcome, w') => (inr (Flow (outcome_response outcome)), w')
  | (inl e, w') => (inl e, w')
  end.
Proof.
  intros Hmethod Hpath. unfold handler. rewrite Hmethod, Hpath. cbn.
  unfold mbind, prog_bind. rewrite run_bind.
  now destruct (run (handleCallback' request client) w) as [[e|outcome] w'].
Qed.

(** X11: a GET request for [/] without a session is answered with the
    page for visitors and looks no access token up; with a session id
    the page shows the access token of that session, and a failure of
    its lookup is the failure of the request. *)
Theorem handler_index request :
  method request = "GET" ->
  pathname (url request) = "/" ->
  (getSessionId request = None ->
   serve request
   = Ret (Page 200 (Some anonymousBody) (Some "text/html; charset=utf-8")))
  /\ (forall sessionId' w,
        getSessionId request = Some sessionId' ->
        run (serve request) w =
        match run (getSessionAccessToken client sessionId') w with
        | (inr accessToken, w') =>
            (inr (Page 200 (Some (signedInBody accessToken))
                    (Some "text/html; charset=utf-8")), w')
        | (inl e, w') => (inl e, w')
        end).
Proof.
  intros Hmethod Hpath. unfold handler, indexHandler.
  rewrite Hmethod, Hpath. cbn. split.
  - now intros ->.
  - intros sessionId' w ->.
    unfold mbind, prog_bind. rewrite run_bind.
    now destruct (run (getSessionAccessToken client sessionId') w) as [[e|t] w'].
Qed.

End DemoProperties.

(** ** The flows at the sample data *)

Example getCookieName_http :
  getCookieName HOST_PREFIX SITE_COOKIE_NAME (isHttps "http://localhost:8000/")
  = "site-session".
Proof. reflexivity. Qed.

Example getCookieName_https :
  getCookieName HOST_PREFIX OAUTH_COOKIE_NAME (isHttps "https://example.com/")
  = "__Host-oauth-session".
Proof. reflexivity. Qed.

Example truthy_zero : truthy 0 = false /\ truthy 3600 = true.
Proof. split; reflexivity. Qed.

(** A callback over http with [{ maxAge: 3600 }]: the redirect, the site
    cookie, and the site session that expires after an hour. *)
Example sample_callback :
  let r := run (handleCallback SPEC_COOKIE_BASE HOST_PREFIX accept http_callback
                  sample_config (Some maxAge_hour_option)) sample_world in
  r.1 = inr {| response :=
                 {| status := 302;
                    location := Some "/dashboard";
                    setCookies :=
                      [{| name := present "site-session";
                          value := present "uuid-0";
                          expires := absent;
                          maxAge := present 3600;
                          domain := absent;
                          path := present "/";
                          secure := present false;
                          httpOnly := present true;
                          sameSite := present Lax;
                          unparsed := absent |}] |};
               sessionId := "uuid-0";
               tokens := sample_tokens |}
  /\ site_sessions r.2 !! "uuid-0"
     = Some {| stored := tt; expiresAt := Some 3600000 |}
  /\ oauth_sessions r.2 !! "h1" = None.
Proof. repeat split. Qed.

(** The same request handled twice at once: whoever comes first returns,
    the other one fails. *)
Example sample_race :
  let P := handleCallback SPEC_COOKIE_BASE HOST_PREFIX accept http_callback
             sample_config None in
  (exists res,
     result (interleave alternating P P sample_world).1.1 = Some (inr res)
     /\ sessionId res = "uuid-0")
  /\ result (interleave alternating P P sample_world).1.2
     = Some (inl NotFoundError)
  /\ result (interleave (false :: alternating) P P sample_world).1.1
     = Some (inl NotFoundError)
  /\ (exists res,
        result (interleave (false :: alternating) P P sample_world).1.2
        = Some (inr res)
        /\ sessionId res = "uuid-0").
Proof.
  cbv zeta. split; [eexists; split; reflexivity|].
  split; [reflexivity|]. split; [reflexivity|].
  eexists; split; reflexivity.
Qed.

(** A second read-and-delete of the sample record finds nothing. *)
Example sample_replay :
  let first := run (getAndDeleteOAuthSession "h1") sample_world in
  first.1 = inr sample_handshake
  /\ (run (getAndDeleteOAuthSession "h1") first.2).1
     = inl NotFoundError.
Proof. split; reflexivity. Qed.

(** The index page of the demo for a visitor with a site cookie. *)
Example sample_index_signed_in :
  run (handler OAuth2ClientConfig string CallbackResult response sample_config
         sample_getSessionAccessToken sample_getSessionId
         (fun request client =>
            handleCallback SPEC_COOKIE_BASE HOST_PREFIX accept request client None)
         (fun request client =>
            signIn SPEC_COOKIE_BASE HOST_PREFIX accept request client None)
         sample_signOut (fun _ => "GET") sample_pathname
         "Who are you?" (fun accessToken => "Your access token: " +:+ accessToken)
         signed_in_index) sample_world
  = (inr (Page 200 (Some "Your access token: access-1")
            (Some "text/html; charset=utf-8")), sample_world).
Proof. reflexivity. Qed.

(** ** The theorems at the sample data *)

Lemma handleCallback_missing_cookie_witness :
  getCookies (headers bare_callback)
    !! getCookieName HOST_PREFIX OAUTH_COOKIE_NAME (isHttps (url bare_callback)) = None
  /\ handleCallback SPEC_COOKIE_BASE HOST_PREFIX accept bare_callback sample_config None
     = Throw (Error "OAuth cookie not found")
  /\ run (handleCallback SPEC_COOKIE_BASE HOST_PREFIX accept bare_callback
            sample_config None) sample_world
     = (inl (Error "OAuth cookie not found"), sample_world).
Proof.
  assert (getCookies (headers bare_callback)
            !! getCookieName HOST_PREFIX OAUTH_COOKIE_NAME (isHttps (url bare_callback))
          = None) as Hcookie by reflexivity.
  split; [exact Hcookie|].
  destruct (handleCallback_missing_cookie SPEC_COOKIE_BASE HOST_PREFIX accept
              bare_callback sample_config None Hcookie) as (Hthrow & _ & Hrun).
  split; [exact Hthrow|]. exact (proj1 (Hrun sample_world)).
Defined.

Lemma handleCallback_exchange_failure_witness :
  getCookies (headers http_callback)
    !! getCookieName HOST_PREFIX OAUTH_COOKIE_NAME (isHttps (url http_callback))
  = Some "h1"
  /\ kv_get (now rejecting_world) (oauth_sessions rejecting_world) "h1"
     = Some sample_handshake
  /\ tokenEndpoint rejecting_world (client_calls rejecting_world) sample_config
       (url http_callback) sample_handshake
     = inl (TokenExchangeError "invalid_grant")
  /\ exists w',
       run (handleCallback SPEC_COOKIE_BASE HOST_PREFIX accept http_callback
              sample_config None) rejecting_world
       = (inl (TokenExchangeError "invalid_grant"), w')
       /\ oauth_sessions w' = delete "h1" (oauth_sessions rejecting_world)
       /\ site_sessions w' = site_sessions rejecting_world
       /\ uuids_used w' = uuids_used rejecting_world
       /\ now w' = now rejecting_world.
Proof.
  assert (getCookies (headers http_callback)
            !! getCookieName HOST_PREFIX OAUTH_COOKIE_NAME (isHttps (url http_callback))
          = Some "h1") as Hcookie by reflexivity.
  assert (kv_get (now rejecting_world) (oauth_sessions rejecting_world) "h1"
          = Some sample_handshake) as Hrecord by reflexivity.
  assert (tokenEndpoint rejecting_world (client_calls rejecting_world) sample_config
            (url http_callback) sample_handshake
          = inl (TokenExchangeError "invalid_grant")) as Hexchange by reflexivity.
  split; [exact Hcookie|]. split; [exact Hrecord|]. split; [exact Hexchange|].
  exact (handleCallback_exchange_failure SPEC_COOKIE_BASE HOST_PREFIX accept
           http_callback sample_config None rejecting_world "h1" sample_handshake
           Hcookie Hrecord (TokenExchangeError "invalid_grant") Hexchange).
Defined.




Lemma handleCallback_maxAge_zero_witness :
  getCookies (headers http_callback)
    !! getCookieName HOST_PREFIX OAUTH_COOKIE_NAME (isHttps (url http_callback))
  = Some "h1"
  /\ kv_get (now sample_world) (oauth_sessions sample_world) "h1"
     = Some sample_handshake
  /\ tokenEndpoint sample_world (client_calls sample_world) sample_config
       (url http_callback) sample_handshake
     = inr sample_tokens
  /\ accept (callbackCookie SPEC_COOKIE_BASE HOST_PREFIX http_callback
               (uuids sample_world (uuids_used sample_world))
               (Some maxAge_zero_option)) = None
  /\ overridden maxAge (Some maxAge_zero_option) = present 0
  /\ exists res w' c,
       run (handleCallback SPEC_COOKIE_BASE HOST_PREFIX accept http_callback
              sample_config (Some maxAge_zero_option)) sample_world = (inr res, w')
       /\ site_sessions w' !! sessionId res
          = Some {| stored := tt; expiresAt := None |}
       /\ setCookies (response res) = [c]
       /\ maxAge c = present 0.
Proof.
  assert (getCookies (headers http_callback)
            !! getCookieName HOST_PREFIX OAUTH_COOKIE_NAME (isHttps (url http_callback))
          = Some "h1") as Hcookie by reflexivity.
  assert (kv_get (now sample_world) (oauth_sessions sample_world) "h1"
          = Some sample_handshake) as Hrecord by reflexivity.
  assert (tokenEndpoint sample_world (client_calls sample_world) sample_config
            (url http_callback) sample_handshake
          = inr sample_tokens) as Hexchange by reflexivity.
  assert (accept (callbackCookie SPEC_COOKIE_BASE HOST_PREFIX http_callback
                    (uuids sample_world (uuids_used sample_world))
                    (Some maxAge_zero_option)) = None)
    as Haccept by reflexivity.
  assert (overridden maxAge (Some maxAge_zero_option) = present 0)
    as Hzero by reflexivity.
  split; [exact Hcookie|]. split; [exact Hrecord|]. split; [exact Hexchange|].
  split; [exact Haccept|]. split; [exact Hzero|].
  exact (handleCallback_maxAge_zero SPEC_COOKIE_BASE HOST_PREFIX accept
           http_callback sample_config (Some maxAge_zero_option) sample_world
           "h1" sample_handshake
           Hcookie Hrecord sample_tokens Hexchange Haccept Hzero).
Defined.

Lemma concurrent_callbacks_witness :
  getCookies (headers http_callback)
    !! getCookieName HOST_PREFIX OAUTH_COOKIE_NAME (isHttps (url http_callback))
  = Some "h1"
  /\ (4 <= turns true alternating)%nat
  /\ (4 <= turns false alternating)%nat
  /\ let P := handleCallback SPEC_COOKIE_BASE HOST_PREFIX accept http_callback
                sample_config None in
     let Q := handleCallback SPEC_COOKIE_BASE HOST_PREFIX accept http_callback
                sample_config (Some maxAge_hour_option) in
     let p := (interleave alternating P Q sample_world).1.1 in
     let q := (interleave alternating P Q sample_world).1.2 in
     let w' := (interleave alternating P Q sample_world).2 in
     ((result p = Some (run P sample_world).1
       /\ result q = Some (inl NotFoundError)
       /\ w' = (run P sample_world).2)
      \/ (result q = Some (run Q sample_world).1
          /\ result p = Some (inl NotFoundError)
          /\ w' = (run Q sample_world).2))
     /\ ~ (exists res1 res2, result p = Some (inr res1) /\ result q = Some (inr res2))
     /\ client_calls w' = S (client_calls sample_world)
     /\ ((exists res, result p = Some (inr res)
                      /\ result q = Some (inl NotFoundError))
         \/ (exists res, result q = Some (inr res)
                         /\ result p = Some (inl NotFoundError))).
Proof.
  assert (getCookies (headers http_callback)
            !! getCookieName HOST_PREFIX OAUTH_COOKIE_NAME (isHttps (url http_callback))
          = Some "h1") as Hcookie by reflexivity.
  assert (4 <= turns true alternating)%nat as Hturns1 by (cbn; lia).
  assert (4 <= turns false alternating)%nat as Hturns2 by (cbn; lia).
  split; [exact Hcookie|]. split; [exact Hturns1|]. split; [exact Hturns2|].
  destruct (concurrent_callbacks SPEC_COOKIE_BASE HOST_PREFIX accept
              http_callback http_callback sample_config sample_config
              None (Some maxAge_hour_option) sample_world "h1" alternating
              Hcookie Hcookie Hturns1 Hturns2)
    as (Hone & Hnever & Honce & Hexactly).
  split; [exact Hone|]. split; [exact Hnever|].
  split; [exact (Honce sample_handshake eq_refl)|].
  exact (Hexactly sample_handshake sample_tokens sample_tokens
           eq_refl eq_refl eq_refl eq_refl eq_refl).
Defined.

Lemma handshake_consumed_once_witness :
  let resp :=
    {| status := 302;
       location := Some "https://provider.example/authorize?state=state-1";
       setCookies :=
         [buildCookie SPEC_COOKIE_BASE HOST_PREFIX OAUTH_COOKIE_NAME "uuid-0"
            false None] |} in
  let w1 := started sample_handshake sample_world in
  run (signIn SPEC_COOKIE_BASE HOST_PREFIX accept http_signin sample_config None)
      sample_world = (inr resp, w1)
  /\ exists id record c,
       setCookies resp = [c] /\ value c = present id
       /\ oauth_sessions w1 !! id
          = Some {| stored := record;
                    expiresAt := Some (now sample_world + OAUTH_SESSION_TTL) |}
       /\ authorizationEndpoint sample_world (client_calls sample_world)
            sample_config (None ≫= urlParams)
          = (default "" (location resp), state record, codeVerifier record)
       /\ successUrl record
          = default (default "/" (referer (headers http_signin)))
                    (None ≫= successUrlOption)
       /\ (forall w2,
             oauth_sessions w2 !! id = oauth_sessions w1 !! id ->
             now w2 < now sample_world + OAUTH_SESSION_TTL ->
             run (getAndDeleteOAuthSession id) w2 = (inr record, consumed id w2)
             /\ forall d,
                  (run (getAndDeleteOAuthSession id) (elapse d (consumed id w2))).1
                  = inl NotFoundError)
       /\ (forall w2,
             oauth_sessions w2 !! id = oauth_sessions w1 !! id ->
             now sample_world + OAUTH_SESSION_TTL <= now w2 ->
             (run (getAndDeleteOAuthSession id) w2).1 = inl NotFoundError).
Proof.
  intros resp w1.
  assert (run (signIn SPEC_COOKIE_BASE HOST_PREFIX accept http_signin sample_config
                 None) sample_world = (inr resp, w1)) as Hrun by reflexivity.
  split; [exact Hrun|].
  exact (proj1 (handshake_consumed_once SPEC_COOKIE_BASE HOST_PREFIX accept
                  http_signin sample_config None sample_world resp w1 Hrun)).
Defined.

Lemma cookie_name_written_and_read_witness :
  isHttps (url http_signin) = isHttps (url http_callback_after_signin)
  /\ getCookieName HOST_PREFIX OAUTH_COOKIE_NAME (isHttps (url http_signin))
     = getCookieName HOST_PREFIX OAUTH_COOKIE_NAME
         (isHttps (url http_callback_after_signin))
  /\ exists id,
       is_Some (oauth_sessions (started sample_handshake sample_world) !! id)
       /\ getCookies (headers http_callback_after_signin)
            !! getCookieName HOST_PREFIX OAUTH_COOKIE_NAME
                 (isHttps (url http_callback_after_signin)) = Some id
       /\ forall oauthConfig' options',
            exists k,
              handleCallback SPEC_COOKIE_BASE HOST_PREFIX accept
                http_callback_after_signin oauthConfig' options'
              = KvGetAndDeleteOAuth id k.
Proof.
  assert (isHttps (url http_signin) = isHttps (url http_callback_after_signin))
    as Hscheme by reflexivity.
  split; [exact Hscheme|].
  destruct (cookie_name_written_and_read SPEC_COOKIE_BASE HOST_PREFIX accept
              http_signin http_callback_after_signin Hscheme)
    as (Hname & Hhandshake & _).
  split; [exact (Hname OAUTH_COOKIE_NAME)|].
  exact (Hhandshake sample_config None sample_world _ _ ∅ eq_refl eq_refl).
Defined.

(** ** Where the code departs from the claims *)



(** ** The further properties at the sample data *)

Lemma handleCallback_unknown_handshake_witness :
  getCookies (headers http_callback)
    !! getCookieName HOST_PREFIX OAUTH_COOKIE_NAME (isHttps (url http_callback))
  = Some "h1"
  /\ (exists e deadline,
        oauth_sessions late_world !! "h1" = Some e
        /\ expiresAt e = Some deadline /\ deadline <= now late_world)
  /\ exists w',
       run (handleCallback SPEC_COOKIE_BASE HOST_PREFIX accept http_callback
              sample_config None) late_world = (inl NotFoundError, w')
       /\ client_calls w' = client_calls late_world
       /\ uuids_used w' = uuids_used late_world
       /\ site_sessions w' = site_sessions late_world
       /\ oauth_sessions w' = delete "h1" (oauth_sessions late_world).
Proof.
  assert (getCookies (headers http_callback)
            !! getCookieName HOST_PREFIX OAUTH_COOKIE_NAME (isHttps (url http_callback))
          = Some "h1") as Hcookie by reflexivity.
  assert (exists e deadline,
            oauth_sessions late_world !! "h1" = Some e
            /\ expiresAt e = Some deadline /\ deadline <= now late_world)
    as Hexpired.
  { exists {| stored := sample_handshake; expiresAt := Some 600000 |}, 600000.
    split; [reflexivity|]. split; [reflexivity|]. cbn. lia. }
  split; [exact Hcookie|]. split; [exact Hexpired|].
  exact (handleCallback_unknown_handshake SPEC_COOKIE_BASE HOST_PREFIX accept
           http_callback sample_config None late_world "h1" Hcookie
           (or_intror Hexpired)).
Defined.

Lemma handleCallback_cookie_rejected_witness :
  getCookies (headers http_callback)
    !! getCookieName HOST_PREFIX OAUTH_COOKIE_NAME (isHttps (url http_callback))
  = Some "h1"
  /\ kv_get (now sample_world) (oauth_sessions sample_world) "h1"
     = Some sample_handshake
  /\ tokenEndpoint sample_world (client_calls sample_world) sample_config
       (url http_callback) sample_handshake
     = inr sample_tokens
  /\ reject (callbackCookie SPEC_COOKIE_BASE HOST_PREFIX http_callback
               (uuids sample_world (uuids_used sample_world)) None)
     = Some (CookieError "invalid cookie")
  /\ exists w',
       run (handleCallback SPEC_COOKIE_BASE HOST_PREFIX reject http_callback
              sample_config None) sample_world
       = (inl (CookieError "invalid cookie"), w')
       /\ site_sessions w' = site_sessions sample_world
       /\ oauth_sessions w' = delete "h1" (oauth_sessions sample_world)
       /\ uuids_used w' = S (uuids_used sample_world)
       /\ client_calls w' = S (client_calls sample_world).
Proof.
  assert (getCookies (headers http_callback)
            !! getCookieName HOST_PREFIX OAUTH_COOKIE_NAME (isHttps (url http_callback))
          = Some "h1") as Hcookie by reflexivity.
  assert (kv_get (now sample_world) (oauth_sessions sample_world) "h1"
          = Some sample_handshake) as Hrecord by reflexivity.
  assert (tokenEndpoint sample_world (client_calls sample_world) sample_config
            (url http_callback) sample_handshake
          = inr sample_tokens) as Hexchange by reflexivity.
  assert (reject (callbackCookie SPEC_COOKIE_BASE HOST_PREFIX http_callback
                    (uuids sample_world (uuids_used sample_world)) None)
          = Some (CookieError "invalid cookie")) as Hreject by reflexivity.
  split; [exact Hcookie|]. split; [exact Hrecord|]. split; [exact Hexchange|].
  split; [exact Hreject|].
  exact (handleCallback_cookie_rejected SPEC_COOKIE_BASE HOST_PREFIX reject
           http_callback sample_config None sample_world "h1" sample_handshake
           sample_tokens (CookieError "invalid cookie")
           Hcookie Hrecord Hexchange Hreject).
Defined.

Lemma handleCallback_replay_witness :
  getCookies (headers http_callback)
    !! getCookieName HOST_PREFIX OAUTH_COOKIE_NAME (isHttps (url http_callback))
  = Some "h1"
  /\ let w1 := (run (handleCallback SPEC_COOKIE_BASE HOST_PREFIX accept
                       http_callback sample_config None) sample_world).2 in
     run (handleCallback SPEC_COOKIE_BASE HOST_PREFIX accept http_callback
            sample_config (Some maxAge_hour_option)) w1
     = (inl NotFoundError, w1).
Proof.
  assert (getCookies (headers http_callback)
            !! getCookieName HOST_PREFIX OAUTH_COOKIE_NAME (isHttps (url http_callback))
          = Some "h1") as Hcookie by reflexivity.
  split; [exact Hcookie|].
  exact (handleCallback_replay SPEC_COOKIE_BASE HOST_PREFIX accept
           http_callback http_callback sample_config sample_config
           None (Some maxAge_hour_option) sample_world "h1" Hcookie Hcookie).
Defined.


Lemma handleCallback_maxAge_undefined_witness :
  getCookies (headers http_callback)
    !! getCookieName HOST_PREFIX OAUTH_COOKIE_NAME (isHttps (url http_callback))
  = Some "h1"
  /\ kv_get (now sample_world) (oauth_sessions sample_world) "h1"
     = Some sample_handshake
  /\ tokenEndpoint sample_world (client_calls sample_world) sample_config
       (url http_callback) sample_handshake
     = inr sample_tokens
  /\ accept (callbackCookie NINETY_DAYS_BASE HOST_PREFIX http_callback
               (uuids sample_world (uuids_used sample_world))
               (Some maxAge_undefined_option)) = None
  /\ overridden maxAge (Some maxAge_undefined_option) = undefined
  /\ exists res w' c,
       run (handleCallback NINETY_DAYS_BASE HOST_PREFIX accept http_callback
              sample_config (Some maxAge_undefined_option)) sample_world
       = (inr res, w')
       /\ setCookies (response res) = [c]
       /\ maxAge c = undefined
       /\ site_sessions w' !! sessionId res
          = Some {| stored := tt; expiresAt := None |}.
Proof.
  assert (getCookies (headers http_callback)
            !! getCookieName HOST_PREFIX OAUTH_COOKIE_NAME (isHttps (url http_callback))
          = Some "h1") as Hcookie by reflexivity.
  assert (kv_get (now sample_world) (oauth_sessions sample_world) "h1"
          = Some sample_handshake) as Hrecord by reflexivity.
  assert (tokenEndpoint sample_world (client_calls sample_world) sample_config
            (url http_callback) sample_handshake
          = inr sample_tokens) as Hexchange by reflexivity.
  assert (accept (callbackCookie NINETY_DAYS_BASE HOST_PREFIX http_callback
                    (uuids sample_world (uuids_used sample_world))
                    (Some maxAge_undefined_option)) = None)
    as Haccept by reflexivity.
  assert (overridden maxAge (Some maxAge_undefined_option) = undefined)
    as Hundefined by reflexivity.
  split; [exact Hcookie|]. split; [exact Hrecord|]. split; [exact Hexchange|].
  split; [exact Haccept|]. split; [exact Hundefined|].
  exact (handleCallback_maxAge_undefined NINETY_DAYS_BASE HOST_PREFIX accept
           http_callback sample_config (Some maxAge_undefined_option)
           sample_world "h1" sample_handshake sample_tokens
           Hcookie Hrecord Hexchange Haccept Hundefined).
Defined.


Lemma handler_not_found_witness :
  let method := fun _ : Request => "POST" in
  let serve :=
    handler OAuth2ClientConfig string CallbackResult response sample_config
      sample_getSessionAccessToken sample_getSessionId
      (fun request client =>
         handleCallback SPEC_COOKIE_BASE HOST_PREFIX accept request client None)
      (fun request client =>
         signIn SPEC_COOKIE_BASE HOST_PREFIX accept request client None)
      sample_signOut method sample_pathname
      "Who are you?" (fun accessToken => "Your access token: " +:+ accessToken) in
  method http_callback <> "GET"
  /\ serve http_callback = Ret (Page 404 None None)
  /\ forall w, run (serve http_callback) w = (inr (Page 404 None None), w).
Proof.
  intros method serve.
  assert (method http_callback <> "GET") as Hmethod by discriminate.
  split; [exact Hmethod|].
  exact (handler_not_found OAuth2ClientConfig string CallbackResult response
           sample_config sample_getSessionAccessToken sample_getSessionId
           (fun request client =>
              handleCallback SPEC_COOKIE_BASE HOST_PREFIX accept request client None)
           (fun request client =>
              signIn SPEC_COOKIE_BASE HOST_PREFIX accept request client None)
           sample_signOut method sample_pathname
           "Who are you?" (fun accessToken => "Your access token: " +:+ accessToken)
           http_callback (or_introl Hmethod)).
Defined.

Lemma handler_callback_route_witness :
  let method := fun _ : Request => "GET" in
  let callback :=
    fun request client =>
      handleCallback SPEC_COOKIE_BASE HOST_PREFIX accept request client None in
  let serve :=
    handler OAuth2ClientConfig string CallbackResult response sample_config
      sample_getSessionAccessToken sample_getSessionId callback
      (fun request client =>
         signIn SPEC_COOKIE_BASE HOST_PREFIX accept request client None)
      sample_signOut method sample_pathname
      "Who are you?" (fun accessToken => "Your access token: " +:+ accessToken) in
  method http_callback = "GET"
  /\ sample_pathname (url http_callback) = "/callback"
  /\ run (serve http_callback) sample_world =
     match run (callback http_callback sample_config) sample_world with
     | (inr outcome, w') => (inr (Flow (response outcome)), w')
     | (inl e, w') => (inl e, w')
     end.
Proof.
  intros method callback serve.
  assert (method http_callback = "GET") as Hmethod by reflexivity.
  assert (sample_pathname (url http_callback) = "/callback") as Hpath
    by reflexivity.
  split; [exact Hmethod|]. split; [exact Hpath|].
  exact (handler_callback_route OAuth2ClientConfig string CallbackResult response
           sample_config sample_getSessionAccessToken sample_getSessionId
           callback
           (fun request client =>
              signIn SPEC_COOKIE_BASE HOST_PREFIX accept request client None)
           sample_signOut method sample_pathname
           "Who are you?" (fun accessToken => "Your access token: " +:+ accessToken)
           http_callback sample_world Hmethod Hpath).
Defined.

Lemma handler_index_witness :
  let method := fun _ : Request => "GET" in
  let serve :=
    handler OAuth2ClientConfig string CallbackResult response sample_config
      sample_getSessionAccessToken sample_getSessionId
      (fun request client =>
         handleCallback SPEC_COOKIE_BASE HOST_PREFIX accept request client None)
      (fun request client =>
         signIn SPEC_COOKIE_BASE HOST_PREFIX accept request client None)
      sample_signOut method sample_pathname
      "Who are you?" (fun accessToken => "Your access token: " +:+ accessToken) in
  method anonymous_index = "GET"
  /\ sample_pathname (url anonymous_index) = "/"
  /\ sample_getSessionId anonymous_index = None
  /\ serve anonymous_index
     = Ret (Page 200 (Some "Who are you?") (Some "text/html; charset=utf-8")).
Proof.
  intros method serve.
  assert (method anonymous_index = "GET") as Hmethod by reflexivity.
  assert (sample_pathname (url anonymous_index) = "/") as Hpath by reflexivity.
  assert (sample_getSessionId anonymous_index = None) as Hnone by reflexivity.
  split; [exact Hmethod|]. split; [exact Hpath|]. split; [exact Hnone|].
  exact (proj1 (handler_index OAuth2ClientConfig string CallbackResult response
                  sample_config sample_getSessionAccessToken sample_getSessionId
                  (fun request client =>
                     handleCallback SPEC_COOKIE_BASE HOST_PREFIX accept request
                       client None)
                  (fun request client =>
                     signIn SPEC_COOKIE_BASE HOST_PREFIX accept request client None)
                  sample_signOut method sample_pathname
                  "Who are you?"
                  (fun accessToken => "Your access token: " +:+ accessToken)
                  anonymous_index Hmethod Hpath) Hnone).
Defined.

Lemma signIn_then_callback_witness :
  let resp :=
    {| status := 302;
       location := Some "https://provider.example/authorize?state=state-1";
       setCookies :=
         [buildCookie SPEC_COOKIE_BASE HOST_PREFIX OAUTH_COOKIE_NAME "uuid-0"
            false None] |} in
  let w1 := started sample_handshake sample_world in
  isHttps (url http_signin) = isHttps (url http_callback_after_signin)
  /\ run (signIn SPEC_COOKIE_BASE HOST_PREFIX accept http_signin sample_config None)
         sample_world = (inr resp, w1)
  /\ getCookies (headers http_callback_after_signin) = sent_back resp ∅
  /\ (forall s, tokenEndpoint w1 (client_calls w1) sample_config
                  (url http_callback_after_signin) s = inr sample_tokens)
  /\ accept (callbackCookie SPEC_COOKIE_BASE HOST_PREFIX
               http_callback_after_signin (uuids w1 (uuids_used w1)) None) = None
  /\ (forall d, d < OAUTH_SESSION_TTL ->
        exists res w2,
          run (handleCallback SPEC_COOKIE_BASE HOST_PREFIX accept
                 http_callback_after_signin sample_config None) (elapse d w1)
          = (inr res, w2)
          /\ tokens res = sample_tokens
          /\ location (response res)
             = Some (default (default "/" (referer (headers http_signin)))
                             (None ≫= successUrlOption)))
  /\ (forall d, OAUTH_SESSION_TTL <= d ->
        exists w2,
          run (handleCallback SPEC_COOKIE_BASE HOST_PREFIX accept
                 http_callback_after_signin sample_config None) (elapse d w1)
          = (inl NotFoundError, w2)
          /\ client_calls w2 = client_calls w1).
Proof.
  intros resp w1.
  assert (isHttps (url http_signin) = isHttps (url http_callback_after_signin))
    as Hscheme by reflexivity.
  assert (run (signIn SPEC_COOKIE_BASE HOST_PREFIX accept http_signin sample_config
                 None) sample_world = (inr resp, w1)) as Hrun by reflexivity.
  assert (getCookies (headers http_callback_after_signin) = sent_back resp ∅)
    as Hjar by reflexivity.
  assert (forall s, tokenEndpoint w1 (client_calls w1) sample_config
                      (url http_callback_after_signin) s = inr sample_tokens)
    as Hgrant by reflexivity.
  assert (accept (callbackCookie SPEC_COOKIE_BASE HOST_PREFIX
                    http_callback_after_signin (uuids w1 (uuids_used w1)) None)
          = None) as Haccept by reflexivity.
  split; [exact Hscheme|]. split; [exact Hrun|]. split; [exact Hjar|].
  split; [exact Hgrant|]. split; [exact Haccept|].
  exact (signIn_then_callback SPEC_COOKIE_BASE HOST_PREFIX accept
           http_signin http_callback_after_signin sample_config None
           sample_config None sample_world resp w1 ∅ sample_tokens
           Hscheme Hrun Hjar Hgrant Haccept).
Defined.

Lemma handleCallback_twice_witness :
  let second_handshake :=
    {| state := "state-2"; codeVerifier := "verifier-2"; successUrl := "/profile" |} in
  let w := two_handshakes_world in
  getCookies (headers http_callback)
    !! getCookieName HOST_PREFIX OAUTH_COOKIE_NAME (isHttps (url http_callback))
  = Some "h1"
  /\ getCookies (headers second_callback)
       !! getCookieName HOST_PREFIX OAUTH_COOKIE_NAME (isHttps (url second_callback))
     = Some "h2"
  /\ "h1" <> "h2"
  /\ kv_get (now w) (oauth_sessions w) "h1" = Some sample_handshake
  /\ kv_get (now w) (oauth_sessions w) "h2" = Some second_handshake
  /\ tokenEndpoint w (client_calls w) sample_config (url http_callback)
       sample_handshake = inr sample_tokens
  /\ tokenEndpoint w (S (client_calls w)) sample_config (url second_callback)
       second_handshake = inr sample_tokens
  /\ accept (callbackCookie SPEC_COOKIE_BASE HOST_PREFIX http_callback
               (uuids w (uuids_used w)) None) = None
  /\ accept (callbackCookie SPEC_COOKIE_BASE HOST_PREFIX second_callback
               (uuids w (S (uuids_used w))) None) = None
  /\ exists res1 w1 res2 w2,
       run (handleCallback SPEC_COOKIE_BASE HOST_PREFIX accept http_callback
              sample_config None) w = (inr res1, w1)
       /\ run (handleCallback SPEC_COOKIE_BASE HOST_PREFIX accept second_callback
                 sample_config None) w1 = (inr res2, w2)
       /\ sessionId res1 = uuids w (uuids_used w)
       /\ sessionId res2 = uuids w (S (uuids_used w))
       /\ location (response res2) = Some (successUrl second_handshake)
       /\ is_Some (site_sessions w2 !! sessionId res2)
       /\ (sessionId res1 <> sessionId res2 ->
           site_sessions w2 !! sessionId res1 = site_sessions w1 !! sessionId res1
           /\ is_Some (site_sessions w2 !! sessionId res1)).
Proof.
  intros second_handshake w.
  assert (getCookies (headers http_callback)
            !! getCookieName HOST_PREFIX OAUTH_COOKIE_NAME (isHttps (url http_callback))
          = Some "h1") as Hcookie1 by reflexivity.
  assert (getCookies (headers second_callback)
            !! getCookieName HOST_PREFIX OAUTH_COOKIE_NAME
                 (isHttps (url second_callback))
          = Some "h2") as Hcookie2 by reflexivity.
  assert ("h1" <> "h2") as Hne by discriminate.
  assert (kv_get (now w) (oauth_sessions w) "h1" = Some sample_handshake)
    as Hrecord1 by reflexivity.
  assert (kv_get (now w) (oauth_sessions w) "h2" = Some second_handshake)
    as Hrecord2 by reflexivity.
  assert (tokenEndpoint w (client_calls w) sample_config (url http_callback)
            sample_handshake = inr sample_tokens) as Hex1 by reflexivity.
  assert (tokenEndpoint w (S (client_calls w)) sample_config (url second_callback)
            second_handshake = inr sample_tokens) as Hex2 by reflexivity.
  assert (accept (callbackCookie SPEC_COOKIE_BASE HOST_PREFIX http_callback
                    (uuids w (uuids_used w)) None) = None) as Hck1 by reflexivity.
  assert (accept (callbackCookie SPEC_COOKIE_BASE HOST_PREFIX second_callback
                    (uuids w (S (uuids_used w))) None) = None)
    as Hck2 by reflexivity.
  split; [exact Hcookie1|]. split; [exact Hcookie2|]. split; [exact Hne|].
  split; [exact Hrecord1|]. split; [exact Hrecord2|]. split; [exact Hex1|].
  split; [exact Hex2|]. split; [exact Hck1|]. split; [exact Hck2|].
  exact (handleCallback_twice SPEC_COOKIE_BASE HOST_PREFIX accept
           http_callback second_callback sample_config sample_config None None
           w "h1" "h2" sample_handshake second_handshake sample_tokens
           sample_tokens
           Hcookie1 Hcookie2 Hne Hrecord1 Hrecord2 Hex1 Hex2 Hck1 Hck2).
Defined.
